(** * The image mark of the chart-authoring core

    A shallow embedding of [src/core/prototypes/marks/image.ts]
    (class [ImageElementClass]) and the properties its specification
    states about it.

    Numbers.  The source computes with JavaScript numbers.  They are
    modelled as exact canonical rationals ([Qc]): every operation the mark
    performs on them ([+], [-], unary minus, division by two, [Math.abs])
    is then an exact field operation, and equality is Leibniz equality.
    Rounding, infinities and NaN are outside the model.

    Objects.  The attribute store is a JavaScript object.  Where the class
    writes it one property at a time ([initializeState]) it is a finite map
    from attribute names to values; where the class reads it through its
    TypeScript interface ([ImageElementAttributes]) it is a record.  The
    two are related by [asImageElementAttributes].

    Collaborators.  The solver, the graphics and geometry modules, the
    state manager and the declarations of [image.attrs.ts] are not part of
    the source at hand.  What the mark merely calls is a parameter (a class
    of the host); the shapes of the objects it builds are modelled from the
    specification and from the literals of [image.ts].

    Embedded are the methods the properties below are about:
    [initializeState], [buildConstraints], [getGraphics], [getDropZones],
    [getHandles] and [getBoundingBox]. *)

From Stdlib Require Import QArith Qcanon Qcabs.
From stdpp Require Import base strings list gmap numbers.

Open Scope Qc_scope.

(** ** Numbers *)

Abbreviation Num := Qc (only parsing).

(** Integer literals of the source. *)
Notation "# z" := (Qc_of_Z z%Z) (at level 1, format "# z") : Qc_scope.

(** [Math.abs]. *)
Definition Math_abs (x : Num) : Num := Qcabs x.

(** The smaller and the larger of two numbers; used only to state
    properties, the class itself never sorts its corners. *)
Definition Qcmin (x y : Num) : Num := if decide (x ≤ y) then x else y.
Definition Qcmax (x y : Num) : Num := if decide (x ≤ y) then y else x.

(** ** Vocabulary owned by the host

    The colour type, the transform descriptor and the transform of a new
    group are declared outside the mark, which only stores and forwards
    them: they are parameters. *)

Class GraphicsTypes := {
  Color : Type;
  RigidTransform : Type;
  (** the transform [makeGroup] gives a new group *)
  defaultTransform : RigidTransform
}.

(** Modelled from the spec: a point of the plane, [Point] of
    [core/common]; the mark reads [offset.x] and [offset.y] and builds
    points as [{ x, y }]. *)
Record Point := { x : Num; y : Num }.

(** ** [Specification]: attribute values and the enumerations the mark
    names.  Only the members the mark uses are known by name. *)
Module Specification.
Section WithTypes.
Context `{GraphicsTypes}.

(** Modelled from the spec: a stored attribute value, of one of the kinds
    number, string, boolean, colour or [null] ([AVNull]). *)
Inductive AttributeValue :=
| AVNumber (n : Num)
| AVString (s : string)
| AVBoolean (b : bool)
| AVColor (c : Color)
| AVNull.

End WithTypes.

(** Modelled from the spec: [Specification.DataKind] and
    [Specification.AttributeType], with the one member each the mark
    names. *)
Inductive DataKind := Numerical | OtherKind (name : string).
Inductive AttributeType := Number | OtherType (name : string).

End Specification.
Import Specification.

Section Attributes.
Context `{GraphicsTypes}.

(** Modelled from the spec: the interface [ImageElementAttributes] of
    [image.attrs.ts], the store as the methods read it.  The fields are the
    attributes [initializeState] writes, with the kinds of the values it
    writes; [None] in a colour or in [image] is [null]. *)
Record ImageElementAttributes := {
  x1 : Num; y1 : Num; x2 : Num; y2 : Num;
  cx : Num; cy : Num;
  width : Num; height : Num;
  stroke : option Color;
  fill : option Color;
  strokeWidth : Num;
  opacity : Num;
  visible : bool;
  image : option string
}.

(** Modelled from the spec: the declared attributes of the image mark
    ([Object.keys(imageAttributes)]; the declaration itself lives in
    [image.attrs.ts]): the corners, the derived centre and size, the style
    attributes and the payload. *)
Definition attributeNames : list string :=
  ["x1"; "y1"; "x2"; "y2"; "cx"; "cy"; "width"; "height";
   "fill"; "stroke"; "strokeWidth"; "opacity"; "visible"; "image"]%string.

(** Typed reads of one property of the store as the object it is at run
    time: property name to value, a name that is not bound reading as
    [undefined]. *)
Definition readNumber (m : gmap string AttributeValue) (name : string) : option Num :=
  match m !! name with Some (AVNumber n) => Some n | _ => None end.

Definition readBoolean (m : gmap string AttributeValue) (name : string) : option bool :=
  match m !! name with Some (AVBoolean b) => Some b | _ => None end.

Definition readColor (m : gmap string AttributeValue) (name : string)
  : option (option Color) :=
  match m !! name with
  | Some (AVColor c) => Some (Some c)
  | Some AVNull => Some None
  | _ => None
  end.

Definition readImage (m : gmap string AttributeValue) (name : string)
  : option (option string) :=
  match m !! name with
  | Some (AVString s) => Some (Some s)
  | Some AVNull => Some None
  | _ => None
  end.

(** The store seen through its interface: defined exactly when every
    declared attribute is present with a value of its declared kind. *)
Definition asImageElementAttributes (m : gmap string AttributeValue)
  : option ImageElementAttributes :=
  x1 ← readNumber m "x1"; y1 ← readNumber m "y1";
  x2 ← readNumber m "x2"; y2 ← readNumber m "y2";
  cx ← readNumber m "cx"; cy ← readNumber m "cy";
  width ← readNumber m "width"; height ← readNumber m "height";
  stroke ← readColor m "stroke"; fill ← readColor m "fill";
  strokeWidth ← readNumber m "strokeWidth";
  opacity ← readNumber m "opacity";
  visible ← readBoolean m "visible";
  image ← readImage m "image";
  Some {| x1 := x1; y1 := y1; x2 := x2; y2 := y2; cx := cx; cy := cy;
          width := width; height := height; stroke := stroke; fill := fill;
          strokeWidth := strokeWidth; opacity := opacity;
          visible := visible; image := image |}.

(** ** [initializeState]

    Fourteen property writes on [this.state.attributes], in source order.
    [-defaultWidth / 2] is [(-defaultWidth) / 2]. *)
Definition initializeState (attrs : gmap string AttributeValue) : gmap string AttributeValue :=
  let defaultWidth : Num := #30 in
  let defaultHeight : Num := #50 in
  let attrs := <["x1" := AVNumber (- defaultWidth / 2)]> attrs in
  let attrs := <["y1" := AVNumber (- defaultHeight / 2)]> attrs in
  let attrs := <["x2" := AVNumber (defaultWidth / 2)]> attrs in
  let attrs := <["y2" := AVNumber (defaultHeight / 2)]> attrs in
  let attrs := <["cx" := AVNumber 0]> attrs in
  let attrs := <["cy" := AVNumber 0]> attrs in
  let attrs := <["width" := AVNumber defaultWidth]> attrs in
  let attrs := <["height" := AVNumber defaultHeight]> attrs in
  let attrs := <["stroke" := AVNull]> attrs in
  let attrs := <["fill" := AVNull]> attrs in
  let attrs := <["strokeWidth" := AVNumber 1]> attrs in
  let attrs := <["opacity" := AVNumber 1]> attrs in
  let attrs := <["visible" := AVBoolean true]> attrs in
  let attrs := <["image" := AVString ""]> attrs in
  attrs.

End Attributes.

(** Modelled from the spec: the interface [ImageElementProperties] of
    [image.attrs.ts]: the [visible] property of the object
    ([prop_visible], the attribute of the same name being [visible]) and
    the resize mode, one of letterbox, fill and stretch. *)
Inductive ImageMode := Letterbox | Fill | Stretch.

Record ImageElementProperties := {
  prop_visible : bool;
  imageMode : ImageMode
}.

(** The mark instance: [this.object.properties] and
    [this.state.attributes]. *)
Record ImageElementClass `{GraphicsTypes} := {
  object_properties : ImageElementProperties;
  state_attributes : ImageElementAttributes
}.

(** ** The solver port

    The solver is a service of the host.  The mark asks it for one variable
    handle per attribute name and registers linear equations over those
    handles: [addLinear strength bias lhs rhs] stands for the equation
    [bias + Σ lhs = Σ rhs], each term a coefficient and a handle. *)
Module Solver.

(** Modelled from the spec: the strength tag of a constraint, a HARD tier
    and the weaker tiers below it. *)
Inductive ConstraintStrength := HARD | SOFT (tier : nat).

(** The two methods the mark calls, as parameters, with the contract of
    [attrs]: one handle per requested name. *)
Class ConstraintSolver `{GraphicsTypes} := {
  Solver : Type;
  Var : Type;
  attrs : Solver → ImageElementAttributes → list string → list Var;
  addLinear :
    Solver → ConstraintStrength → Num →
    list (Num * Var) → list (Num * Var) → Solver;
  (** one handle per requested name *)
  attrs_length solver map names :
    length (attrs solver map names) = length names
}.

(** Modelled from the spec: a registered equation, the four arguments of
    one [addLinear] call. *)
Record Linear (V : Type) := MkLinear {
  strength : ConstraintStrength;
  bias : Num;
  lhs : list (Num * V);
  rhs : list (Num * V)
}.
Global Arguments MkLinear {V} _ _ _ _.
Global Arguments strength {V} _.
Global Arguments bias {V} _.
Global Arguments lhs {V} _.
Global Arguments rhs {V} _.

(** Modelled from the spec: the value of a linear form, a list of
    (coefficient, handle) terms, under an assignment of the variables. *)
Definition linear {V} (ρ : V → Num) (terms : list (Num * V)) : Num :=
  foldr (λ t acc, t.1 * ρ t.2 + acc) 0 terms.

(** Modelled from the spec: the linear equality a registered constraint
    stands for. *)
Definition holds {V} (ρ : V → Num) (c : Linear V) : Prop :=
  bias c + linear ρ (lhs c) = linear ρ (rhs c).

(** What of a constraint does not mention variables. *)
Definition shape {V} (c : Linear V)
  : ConstraintStrength * Num * list Num * list Num :=
  (strength c, bias c, fst <$> lhs c, fst <$> rhs c).

(** Modelled from the spec: a solver that only records what is
    registered, in order.  Its handle for an attribute is whatever [bind]
    makes of the store and the name. *)
Definition recorder `{GraphicsTypes} {V : Type}
    (bind : ImageElementAttributes → string → V) : ConstraintSolver := {|
  Solver := list (Linear V);
  Var := V;
  attrs := λ _ map names, bind map <$> names;
  addLinear := λ solver s b l r, solver ++ [MkLinear s b l r];
  attrs_length := λ _ map names, length_fmap (bind map) names
|}.

End Solver.
Import Solver.

Section Constraints.
Context `{GraphicsTypes} {CS : ConstraintSolver}.

(** ** [buildConstraints]

    The array pattern binds the first eight handles; [attrs_length] makes
    the other branch unreachable. *)
Definition buildConstraints (this : ImageElementClass) (solver : Solver)
  : Solver :=
  match
    attrs solver (state_attributes this)
      ["x1"; "y1"; "x2"; "y2"; "cx"; "cy"; "width"; "height"]%string
  with
  | x1 :: y1 :: x2 :: y2 :: cx :: cy :: width :: height :: _ =>
    let solver :=
      addLinear solver HARD 0 [(1, x2); (-1, x1)] [(1, width)] in
    let solver :=
      addLinear solver HARD 0 [(1, y2); (-1, y1)] [(1, height)] in
    let solver := addLinear solver HARD 0 [(2, cx)] [(1, x1); (1, x2)] in
    let solver := addLinear solver HARD 0 [(2, cy)] [(1, y1); (1, y2)] in
    solver
  | _ => solver
  end.

End Constraints.

(** The constraints the mark registers with a recording solver that
    already holds [log]. *)
Definition recorded `{GraphicsTypes} {V : Type}
    (bind : ImageElementAttributes → string → V)
    (this : ImageElementClass) (log : list (Linear V)) : list (Linear V) :=
  @buildConstraints _ (recorder bind) this log.

(** ** The graphics vocabulary

    What the mark produces: groups, rectangles by two opposite corners and
    a style, images.  The declarations live in [core/graphics]; the fields
    are the ones the mark sets. *)
Module Graphics.
Section WithTypes.
Context `{GraphicsTypes}.

(** Modelled from the spec: the line join of a stroke; the mark names
    [miter]. *)
Inductive LineJoin := miter | OtherJoin (name : string).

(** Modelled from the spec: a style, with the fields the mark's three
    style literals set; a field a literal does not mention, or sets to
    [null], is [None]. *)
Record Style := {
  strokeColor : option Color;
  strokeWidth : option Num;
  strokeLinejoin : option LineJoin;
  fillColor : option Color;
  opacity : option Num
}.

(** Modelled from the spec: the image primitive, with the fields of the
    literal in [getGraphics]. *)
Record Image := {
  src : string;
  x : Num;
  y : Num;
  width : Num;
  height : Num;
  mode : ImageMode
}.

(** Modelled from the spec: a group of elements with a transform and an
    optional style. *)
Record GroupOf (E : Type) := {
  elements : list E;
  transform : RigidTransform;
  style : option Style
}.
Global Arguments elements {E} _.
Global Arguments transform {E} _.
Global Arguments style {E} _.

(** Modelled from the spec: the primitives of the vocabulary, rectangle,
    image and group. *)
#[warnings="-register-all"] Inductive Element :=
| ERect (x1 y1 x2 y2 : Num) (style : Style)
| EImage (image : Image)
| EGroup (group : GroupOf Element).

Definition Group := GroupOf Element.

(** Modelled from the spec: [makeGroup(elements)], the group of the given
    elements, under the transform of a new group and without style. *)
Definition makeGroup (elements : list Element) : Group :=
  {| elements := elements; transform := defaultTransform; style := None |}.

(** [g.elements.push(e)]. *)
Definition push (g : Group) (e : Element) : Group :=
  {| elements := elements g ++ [e];
     transform := transform g; style := style g |}.

(** [g.transform = t] and [g.style = s]. *)
Definition setTransform (g : Group) (t : RigidTransform) : Group :=
  {| elements := elements g; transform := t; style := style g |}.

Definition setStyle (g : Group) (s : Style) : Group :=
  {| elements := elements g; transform := transform g; style := Some s |}.

(** Modelled from the spec: a coordinate system, an object with the two
    methods the mark calls. *)
Record CoordinateSystem := {
  transformPoint : Num → Num → Point;
  getLocalTransform : Num → Num → RigidTransform
}.

(** What else the mark calls in the graphics and geometry modules, as
    parameters: [new CoordinateSystemHelper(cs).rect(x1, y1, x2, y2, style)],
    the rectangle of a coordinate system, and [Geometry.pointDistance]. *)
Class Services := {
  rect : CoordinateSystem → Num → Num → Num → Num → Style → Element;
  pointDistance : Point → Point → Num
}.

End WithTypes.
End Graphics.

(** ** The resource resolver

    [manager.resolveResource] is the one call of [getGraphics] with which
    the mark consults its manager.  A computation that may ask the manager
    to resolve a resource is a tree: a result, or a request with its
    continuation. *)
Inductive Resolving (A : Type) : Type :=
| Ret (a : A)
| ResolveResource (description : string) (k : string → Resolving A).
Arguments Ret {A} _.
Arguments ResolveResource {A} _ _.

Fixpoint bind {A B} (m : Resolving A) (f : A → Resolving B) : Resolving B :=
  match m with
  | Ret a => f a
  | ResolveResource d k => ResolveResource d (λ r, bind (k r) f)
  end.

(** Run against a manager: the result, and the requests it received. *)
Fixpoint run {A} (resolveResource : string → string) (m : Resolving A) : A :=
  match m with
  | Ret a => a
  | ResolveResource d k => run resolveResource (k (resolveResource d))
  end.

Fixpoint requests {A} (resolveResource : string → string) (m : Resolving A)
  : list string :=
  match m with
  | Ret _ => []
  | ResolveResource d k =>
    d :: requests resolveResource (k (resolveResource d))
  end.

Global Instance Resolving_ret : MRet Resolving := @Ret.
Global Instance Resolving_bind : MBind Resolving := λ A B f m, bind m f.

Definition imagePlaceholder : string :=
  "data:image/svg+xml;base64,PHN2ZyB4bWxucz0iaHR0cDovL3d3dy53My5vcmcvMjAwMC9zdmciIHZpZXdCb3g9IjAgMCAzMiAzMiI+PHRpdGxlPmljb25zPC90aXRsZT48cmVjdCB4PSI1LjE1MTI0IiB5PSI2LjY4NDYyIiB3aWR0aD0iMjEuNjk3NTIiIGhlaWdodD0iMTguNjEyNSIgc3R5bGU9ImZpbGw6bm9uZTtzdHJva2U6IzAwMDtzdHJva2UtbGluZWpvaW46cm91bmQ7c3Ryb2tlLXdpZHRoOjAuOTI2MTg0MTE3Nzk0MDM2OXB4Ii8+PHBvbHlnb24gcG9pbnRzPSIyMC4xNSAxMi45NDMgMTMuODExIDIxLjQwNCAxMC4xNTQgMTYuNDk4IDUuMTUxIDIzLjE3NiA1LjE1MSAyNS4zMDYgMTAuODg4IDI1LjMwNiAxNi43MTkgMjUuMzA2IDI2Ljg0OSAyNS4zMDYgMjYuODQ5IDIxLjkzIDIwLjE1IDEyLjk0MyIgc3R5bGU9ImZpbGwtb3BhY2l0eTowLjI7c3Ryb2tlOiMwMDA7c3Ryb2tlLWxpbmVjYXA6cm91bmQ7c3Ryb2tlLWxpbmVqb2luOnJvdW5kO3N0cm9rZS13aWR0aDowLjcwMDAwMDAwMDAwMDAwMDFweCIvPjxjaXJjbGUgY3g9IjExLjkyMDI3IiBjeT0iMTIuMzk5MjMiIHI9IjEuOTAyMTYiIHN0eWxlPSJmaWxsLW9wYWNpdHk6MC4yO3N0cm9rZTojMDAwO3N0cm9rZS1saW5lY2FwOnJvdW5kO3N0cm9rZS1saW5lam9pbjpyb3VuZDtzdHJva2Utd2lkdGg6MC43MDAwMDAwMDAwMDAwMDAxcHgiLz48L3N2Zz4=".

Section Render.
Context `{GraphicsTypes} {GS : Graphics.Services}.

(** ** [getGraphics]

    [None] is the [null] the method returns to skip drawing.  A colour is
    an object, so [if (attrs.fill)] asks whether it is not [null];
    [attrs.image == null] holds of [null] and of nothing else a string
    attribute can be.  The helper is the coordinate system it wraps, so
    [helper.rect] is [Graphics.rect cs]. *)
Definition getGraphics (this : ImageElementClass)
    (cs : Graphics.CoordinateSystem) (offset : Point) (glyphIndex : Num)
  : Resolving (option Graphics.Element) :=
  let attrs := state_attributes this in
  if negb (visible attrs) || negb (prop_visible (object_properties this))
  then Ret None
  else
    let g := Graphics.makeGroup [] in
    let g :=
      match fill attrs with
      | Some fillColor =>
        Graphics.push g
          (Graphics.rect cs
             (x1 attrs + x offset) (y1 attrs + y offset)
             (x2 attrs + x offset) (y2 attrs + y offset)
             {| Graphics.strokeColor := None;
                Graphics.strokeWidth := None;
                Graphics.strokeLinejoin := None;
                Graphics.fillColor := Some fillColor;
                Graphics.opacity := None |})
      | None => g
      end in
    let cx := (x1 attrs + x2 attrs) / 2 in
    let cy := (y1 attrs + y2 attrs) / 2 in
    let localWidth :=
      Graphics.pointDistance
        (Graphics.transformPoint cs (x1 attrs + x offset) (cy + y offset))
        (Graphics.transformPoint cs (x2 attrs + x offset) (cy + y offset)) in
    let localHeight :=
      Graphics.pointDistance
        (Graphics.transformPoint cs (cx + x offset) (y1 attrs + y offset))
        (Graphics.transformPoint cs (cx + x offset) (y2 attrs + y offset)) in
    src ←
      match image attrs with
      | Some "" | None => Ret imagePlaceholder
      | Some description => ResolveResource description Ret
      end;
    let gImage :=
      Graphics.makeGroup
        [Graphics.EImage
           {| Graphics.src := src;
              Graphics.x := - localWidth / 2;
              Graphics.y := - localHeight / 2;
              Graphics.width := localWidth;
              Graphics.height := localHeight;
              Graphics.mode := imageMode (object_properties this) |}] in
    let gImage :=
      Graphics.setTransform gImage
        (Graphics.getLocalTransform cs (cx + x offset) (cy + y offset)) in
    let g := Graphics.push g (Graphics.EGroup gImage) in
    let g :=
      match stroke attrs with
      | Some strokeColor =>
        Graphics.push g
          (Graphics.rect cs
             (x1 attrs + x offset) (y1 attrs + y offset)
             (x2 attrs + x offset) (y2 attrs + y offset)
             {| Graphics.strokeColor := Some strokeColor;
                Graphics.strokeWidth := Some (strokeWidth attrs);
                Graphics.strokeLinejoin := Some Graphics.miter;
                Graphics.fillColor := None;
                Graphics.opacity := None |})
      | None => g
      end in
    let g :=
      Graphics.setStyle g
        {| Graphics.strokeColor := None;
           Graphics.strokeWidth := None;
           Graphics.strokeLinejoin := None;
           Graphics.fillColor := None;
           Graphics.opacity := Some (opacity attrs) |} in
    Ret (Some (Graphics.EGroup g)).

End Render.

(** ** Interaction geometry: the descriptions the editor consumes

    Modelled from the spec: the declarations live in [prototypes/common];
    the records below have the fields of the literals the mark builds. *)

Module DropZones.

Record Accept := { kind : DataKind }.

Record Hints := { autoRange : bool }.

Record ScaleInference := {
  attribute : string;
  attributeType : AttributeType;
  hints : Hints
}.

Record DropAction := { scaleInference : ScaleInference }.

(** A zone; [type] is the tag the literal carries. *)
Record Line := {
  type : string;
  p1 : Point;
  p2 : Point;
  title : string;
  accept : Accept;
  dropAction : DropAction
}.

End DropZones.

Module Handles.

Inductive Axis := X | Y.

(** One write of a dragged value into an attribute; [source] names the
    coordinate of a dragged point it takes, a line handle has none. *)
Record Action := {
  type : string;
  source : option Axis;
  attribute : string
}.

Inductive Description :=
| Line (axis : Axis) (actions : list Action) (value : Num) (span : Num * Num)
| Point (x y : Num) (actions : list Action).

End Handles.

Module BoundingBox.

Record Rectangle := {
  type : string;
  cx : Num;
  cy : Num;
  width : Num;
  height : Num;
  rotation : Num
}.

End BoundingBox.

Section Interaction.
Context `{GraphicsTypes}.

(** ** [getDropZones] *)
Definition getDropZones (this : ImageElementClass) : list DropZones.Line :=
  let attrs := state_attributes this in
  let '(x1, y1, x2, y2) := (x1 attrs, y1 attrs, x2 attrs, y2 attrs) in
  [ {| DropZones.type := "line";
       DropZones.p1 := {| x := x2; y := y1 |};
       DropZones.p2 := {| x := x1; y := y1 |};
       DropZones.title := "width";
       DropZones.accept := {| DropZones.kind := Numerical |};
       DropZones.dropAction :=
         {| DropZones.scaleInference :=
              {| DropZones.attribute := "width";
                 DropZones.attributeType := Number;
                 DropZones.hints := {| DropZones.autoRange := true |} |} |}
    |};
    {| DropZones.type := "line";
       DropZones.p1 := {| x := x1; y := y1 |};
       DropZones.p2 := {| x := x1; y := y2 |};
       DropZones.title := "height";
       DropZones.accept := {| DropZones.kind := Numerical |};
       DropZones.dropAction :=
         {| DropZones.scaleInference :=
              {| DropZones.attribute := "height";
                 DropZones.attributeType := Number;
                 DropZones.hints := {| DropZones.autoRange := true |} |} |}
    |} ].

(** ** [getHandles]

    [lineAction a] is the literal [{ type: "attribute", attribute: a }],
    [pointAction s a] the literal
    [{ type: "attribute", source: s, attribute: a }]. *)
Definition lineAction (attribute : string) : Handles.Action :=
  {| Handles.type := "attribute";
     Handles.source := None;
     Handles.attribute := attribute |}.

Definition pointAction (source : Handles.Axis) (attribute : string)
  : Handles.Action :=
  {| Handles.type := "attribute";
     Handles.source := Some source;
     Handles.attribute := attribute |}.

Definition getHandles (this : ImageElementClass)
  : list Handles.Description :=
  let attrs := state_attributes this in
  let '(x1, y1, x2, y2) := (x1 attrs, y1 attrs, x2 attrs, y2 attrs) in
  [ Handles.Line Handles.X [lineAction "x1"] x1 (y1, y2);
    Handles.Line Handles.X [lineAction "x2"] x2 (y1, y2);
    Handles.Line Handles.Y [lineAction "y1"] y1 (x1, x2);
    Handles.Line Handles.Y [lineAction "y2"] y2 (x1, x2);
    Handles.Point x1 y1
      [pointAction Handles.X "x1"; pointAction Handles.Y "y1"];
    Handles.Point x1 y2
      [pointAction Handles.X "x1"; pointAction Handles.Y "y2"];
    Handles.Point x2 y1
      [pointAction Handles.X "x2"; pointAction Handles.Y "y1"];
    Handles.Point x2 y2
      [pointAction Handles.X "x2"; pointAction Handles.Y "y2"] ].

(** ** [getBoundingBox] *)
Definition getBoundingBox (this : ImageElementClass)
  : BoundingBox.Rectangle :=
  let attrs := state_attributes this in
  let '(x1, y1, x2, y2) := (x1 attrs, y1 attrs, x2 attrs, y2 attrs) in
  {| BoundingBox.type := "rectangle";
     BoundingBox.cx := (x1 + x2) / 2;
     BoundingBox.cy := (y1 + y2) / 2;
     BoundingBox.width := Math_abs (x2 - x1);
     BoundingBox.height := Math_abs (y2 - y1);
     BoundingBox.rotation := 0 |}.

End Interaction.

(** ** Vocabulary of the properties *)

Section Observers.
Context `{GraphicsTypes}.

(** The store with its four corners replaced. *)
Definition withCorners (a : ImageElementAttributes) (x1' y1' x2' y2' : Num)
  : ImageElementAttributes :=
  {| x1 := x1'; y1 := y1'; x2 := x2'; y2 := y2';
     cx := cx a; cy := cy a; width := width a; height := height a;
     stroke := stroke a; fill := fill a; strokeWidth := strokeWidth a;
     opacity := opacity a; visible := visible a; image := image a |}.


Definition withAttributes (this : ImageElementClass)
    (a : ImageElementAttributes) : ImageElementClass :=
  {| object_properties := object_properties this; state_attributes := a |}.

(** The mark with the two ends of one axis exchanged. *)
Definition swapX (this : ImageElementClass) : ImageElementClass :=
  let a := state_attributes this in
  withAttributes this (withCorners a (x2 a) (y1 a) (x1 a) (y2 a)).

Definition swapY (this : ImageElementClass) : ImageElementClass :=
  let a := state_attributes this in
  withAttributes this (withCorners a (x1 a) (y2 a) (x2 a) (y1 a)).



(** The defaults the specification documents: the box of width 30 and
    height 50 centred at the origin, no fill, no stroke, stroke width and
    opacity 1, visible, the empty image reference. *)
Definition defaultAttributes : ImageElementAttributes :=
  {| x1 := #(-15); y1 := #(-25); x2 := #15; y2 := #25;
     cx := 0; cy := 0; width := #30; height := #50;
     stroke := None; fill := None; strokeWidth := 1; opacity := 1;
     visible := true; image := Some "" |}.

(** The current value of a corner attribute, by name: what the editor
    reads to place a handle and what a write action overwrites. *)
Definition cornerValue (a : ImageElementAttributes) (name : string)
  : option Num :=
  if decide (name = "x1") then Some (x1 a)
  else if decide (name = "y1") then Some (y1 a)
  else if decide (name = "x2") then Some (x2 a)
  else if decide (name = "y2") then Some (y2 a)
  else None.

(** The attributes a handle writes, and the handles by kind. *)
Definition targets (h : Handles.Description) : list string :=
  match h with
  | Handles.Line _ actions _ _ | Handles.Point _ _ actions =>
    Handles.attribute <$> actions
  end.

Definition isLine (h : Handles.Description) : bool :=
  match h with Handles.Line _ _ _ _ => true | Handles.Point _ _ _ => false end.

Definition isPoint (h : Handles.Description) : bool := negb (isLine h).

Definition lineHandles (hs : list Handles.Description)
  : list Handles.Description := List.filter isLine hs.

Definition pointHandles (hs : list Handles.Description)
  : list Handles.Description := List.filter isPoint hs.

(** That a line handle's span is the sorted interval of the opposite
    axis's corners. *)
Definition spanSorted (a : ImageElementAttributes) (h : Handles.Description)
  : Prop :=
  match h with
  | Handles.Line Handles.X _ _ span =>
    span = (Qcmin (y1 a) (y2 a), Qcmax (y1 a) (y2 a))
  | Handles.Line Handles.Y _ _ span =>
    span = (Qcmin (x1 a) (x2 a), Qcmax (x1 a) (x2 a))
  | Handles.Point _ _ _ => True
  end.

(** That a line handle's span has the opposite axis's two corners as its
    ends, in the order the store has them. *)
Definition spanCorners (a : ImageElementAttributes) (h : Handles.Description)
  : Prop :=
  match h with
  | Handles.Line Handles.X _ _ span => span = (y1 a, y2 a)
  | Handles.Line Handles.Y _ _ span => span = (x1 a, x2 a)
  | Handles.Point _ _ _ => True
  end.

(** That the two ends of a line handle's span are, the smaller one the
    smaller corner and the larger one the larger corner of the opposite
    axis. *)
Definition spanEnds (a : ImageElementAttributes) (h : Handles.Description)
  : Prop :=
  match h with
  | Handles.Line Handles.X _ _ span =>
    Qcmin span.1 span.2 = Qcmin (y1 a) (y2 a) ∧
    Qcmax span.1 span.2 = Qcmax (y1 a) (y2 a)
  | Handles.Line Handles.Y _ _ span =>
    Qcmin span.1 span.2 = Qcmin (x1 a) (x2 a) ∧
    Qcmax span.1 span.2 = Qcmax (x1 a) (x2 a)
  | Handles.Point _ _ _ => True
  end.

(** That a handle sits where the attributes it writes currently are: a
    line handle of an axis carries one action, without source, on a corner
    attribute of that axis whose value is the handle's; a point handle
    carries two actions, the first writing the dragged [x] into an
    x-corner and the second the dragged [y] into a y-corner, and lies at
    the corner those two attributes describe. *)
Definition handlePlaced (a : ImageElementAttributes)
    (h : Handles.Description) : Prop :=
  match h with
  | Handles.Line axis [act] value _ =>
    Handles.type act = "attribute"%string ∧
    Handles.source act = None ∧
    Handles.attribute act ∈
      match axis with
      | Handles.X => ["x1"; "x2"]%string
      | Handles.Y => ["y1"; "y2"]%string
      end ∧
    cornerValue a (Handles.attribute act) = Some value
  | Handles.Point px py [actx; acty] =>
    Handles.type actx = "attribute"%string ∧
    Handles.type acty = "attribute"%string ∧
    Handles.source actx = Some Handles.X ∧
    Handles.source acty = Some Handles.Y ∧
    Handles.attribute actx ∈ ["x1"; "x2"]%string ∧
    Handles.attribute acty ∈ ["y1"; "y2"]%string ∧
    cornerValue a (Handles.attribute actx) = Some px ∧
    cornerValue a (Handles.attribute acty) = Some py
  | _ => False
  end.

Context {GS : Graphics.Services}.

(** The three layers of the render tree, as the specification describes
    them: the filled rectangle without stroke, the group of the image
    centred at the local origin, the outline without fill. *)
Definition fillLayer (this : ImageElementClass)
    (cs : Graphics.CoordinateSystem) (offset : Point) (c : Color)
  : Graphics.Element :=
  let a := state_attributes this in
  Graphics.rect cs (x1 a + x offset) (y1 a + y offset)
    (x2 a + x offset) (y2 a + y offset)
    {| Graphics.strokeColor := None; Graphics.strokeWidth := None;
       Graphics.strokeLinejoin := None; Graphics.fillColor := Some c;
       Graphics.opacity := None |}.

Definition strokeLayer (this : ImageElementClass)
    (cs : Graphics.CoordinateSystem) (offset : Point) (c : Color)
  : Graphics.Element :=
  let a := state_attributes this in
  Graphics.rect cs (x1 a + x offset) (y1 a + y offset)
    (x2 a + x offset) (y2 a + y offset)
    {| Graphics.strokeColor := Some c;
       Graphics.strokeWidth := Some (strokeWidth a);
       Graphics.strokeLinejoin := Some Graphics.miter;
       Graphics.fillColor := None; Graphics.opacity := None |}.

Definition imageLayer (this : ImageElementClass)
    (cs : Graphics.CoordinateSystem) (offset : Point) (src : string)
  : Graphics.Element :=
  let a := state_attributes this in
  let mx := (x1 a + x2 a) / 2 + x offset in
  let my := (y1 a + y2 a) / 2 + y offset in
  let w :=
    Graphics.pointDistance
      (Graphics.transformPoint cs (x1 a + x offset) my)
      (Graphics.transformPoint cs (x2 a + x offset) my) in
  let h :=
    Graphics.pointDistance
      (Graphics.transformPoint cs mx (y1 a + y offset))
      (Graphics.transformPoint cs mx (y2 a + y offset)) in
  Graphics.EGroup
    {| Graphics.elements :=
         [Graphics.EImage
            {| Graphics.src := src;
               Graphics.x := - w / 2; Graphics.y := - h / 2;
               Graphics.width := w; Graphics.height := h;
               Graphics.mode := imageMode (object_properties this) |}];
       Graphics.transform := Graphics.getLocalTransform cs mx my;
       Graphics.style := None |}.

(** The source the image primitive is to carry under a given manager, and
    the requests the manager is to receive for it. *)
Definition expectedSource (resolveResource : string → string)
    (image : option string) : string :=
  match image with
  | None | Some "" => imagePlaceholder
  | Some description => resolveResource description
  end.

Definition expectedRequests (image : option string) : list string :=
  match image with
  | None | Some "" => []
  | Some description => [description]
  end.

(** The layers in drawing order: fill below the image, stroke above. *)
Definition layers (this : ImageElementClass)
    (cs : Graphics.CoordinateSystem) (offset : Point) (src : string)
  : list Graphics.Element :=
  let a := state_attributes this in
  option_list (fillLayer this cs offset <$> fill a) ++
  [imageLayer this cs offset src] ++
  option_list (strokeLayer this cs offset <$> stroke a).

(** The style of the returned group: the opacity and nothing else. *)
Definition opacityStyle (a : ImageElementAttributes) : Graphics.Style :=
  {| Graphics.strokeColor := None; Graphics.strokeWidth := None;
     Graphics.strokeLinejoin := None; Graphics.fillColor := None;
     Graphics.opacity := Some (opacity a) |}.

End Observers.

(** ** A concrete host

    Colours by name, transforms as translations, the Cartesian coordinate
    system, the rectangle primitive for rectangles, and a distance that
    agrees with the Euclidean one on the axis-parallel pairs the mark
    measures.  Used to evaluate the mark on concrete states. *)
Module Host.

Definition types : GraphicsTypes :=
  {| Color := string; RigidTransform := Point;
     defaultTransform := Build_Point 0 0 |}.

Definition translation (px py : Num) : @RigidTransform types :=
  {| x := px; y := py |}.

Definition cartesian : @Graphics.CoordinateSystem types :=
  @Graphics.Build_CoordinateSystem types Build_Point translation.

Definition axisDistance (p q : Point) : Num :=
  Qcabs (x p - x q) + Qcabs (y p - y q).

Definition services : @Graphics.Services types :=
  @Graphics.Build_Services types (λ _, @Graphics.ERect types) axisDistance.

(** A manager that resolves a description to itself. *)
Definition resolveResource (description : string) : string := description.

Definition black : @Color types := "black"%string.
Definition white : @Color types := "white"%string.

Definition defaults : @ImageElementAttributes types :=
  @defaultAttributes types.

Definition properties : ImageElementProperties :=
  {| prop_visible := true; imageMode := Letterbox |}.

Definition mark (a : @ImageElementAttributes types)
  : @ImageElementClass types :=
  {| object_properties := properties; state_attributes := a |}.

(** Dragged past its opposite corner: [y1 > y2] and [x1 > x2]. *)
Definition flipped : @ImageElementAttributes types :=
  withCorners defaults #15 #25 #(-15) #(-25).

(** Both colours set, an image reference, stale derived attributes. *)
Definition styled : @ImageElementAttributes types :=
  {| x1 := #(-15); y1 := #(-25); x2 := #15; y2 := #25;
     cx := #7; cy := #9; width := 1; height := 2;
     stroke := Some black; fill := Some white;
     strokeWidth := 2; opacity := 1 / 2;
     visible := true; image := Some "resource:logo" |}.

Definition origin : Point := {| x := 0; y := 0 |}.

End Host.

(** * The rest of the class

    The static members, the remaining interaction geometry
    ([getSnappingGuides], [getLinkAnchors]) and the attribute panel
    ([getAttributePanelWidgets]). *)

(** ** Static members *)

Section Statics.
Context `{GraphicsTypes}.

(** [ImageElementClass.defaultProperties]. *)
Definition defaultProperties : ImageElementProperties :=
  {| prop_visible := true; imageMode := Letterbox |}.

(** [ImageElementClass.defaultMappingValues], a partial attribute
    object. *)
Definition defaultMappingValues : gmap string AttributeValue :=
  <["strokeWidth" := AVNumber 1]>
    (<["opacity" := AVNumber 1]>
       (<["visible" := AVBoolean true]> ∅)).

End Statics.

(** [metadata.creatingInteraction.mapping]: which attribute each side of
    the rectangle drawn to create the mark goes to. *)
Definition creatingInteraction_mapping : list (string * string) :=
  [("xMin", "x1"); ("yMin", "y1"); ("xMax", "x2"); ("yMax", "y2")]%string.

(** ** The object of the mark

    Beside its properties the methods below read the identity of the
    object and its mappings; a mapping is declared by the host and only
    tested for presence. *)
Record ImageElementObject `{GraphicsTypes} (Mapping : Type) := {
  instance : ImageElementClass;
  object_id : string;
  object_mappings : gmap string Mapping
}.
Arguments instance {_ Mapping} _.
Arguments object_id {_ Mapping} _.
Arguments object_mappings {_ Mapping} _.

(** ** Snapping guides and link anchors *)

(** Modelled from the spec: the descriptions declared in
    [prototypes/common], with the fields of the literals the mark builds. *)
Module SnappingGuides.

Record Axis := {
  type : Handles.Axis;
  value : Num;
  attribute : string
}.

End SnappingGuides.

Module LinkAnchor.

Record AnchorPoint := {
  x : Num;
  y : Num;
  xAttribute : string;
  yAttribute : string;
  direction : Point
}.

Record Description := {
  element : string;
  points : list AnchorPoint
}.

End LinkAnchor.

Section MoreInteraction.
Context `{GraphicsTypes} {Mapping : Type}.

(** ** [getLinkAnchors] *)
Definition getLinkAnchors (this : ImageElementObject Mapping)
  : list LinkAnchor.Description :=
  let attrs := state_attributes (instance this) in
  let element := object_id this in
  let anchor px py xa ya dx dy :=
    {| LinkAnchor.x := px; LinkAnchor.y := py;
       LinkAnchor.xAttribute := xa; LinkAnchor.yAttribute := ya;
       LinkAnchor.direction := {| x := dx; y := dy |} |} in
  [ {| LinkAnchor.element := element;
       LinkAnchor.points :=
         [ anchor (x1 attrs) (y1 attrs) "x1" "y1" (-1) 0;
           anchor (x1 attrs) (y2 attrs) "x1" "y2" (-1) 0 ] |};
    {| LinkAnchor.element := element;
       LinkAnchor.points :=
         [ anchor (x2 attrs) (y1 attrs) "x2" "y1" 1 0;
           anchor (x2 attrs) (y2 attrs) "x2" "y2" 1 0 ] |};
    {| LinkAnchor.element := element;
       LinkAnchor.points :=
         [ anchor (x1 attrs) (y1 attrs) "x1" "y1" 0 (-1);
           anchor (x2 attrs) (y1 attrs) "x2" "y1" 0 (-1) ] |};
    {| LinkAnchor.element := element;
       LinkAnchor.points :=
         [ anchor (x1 attrs) (y2 attrs) "x1" "y2" 0 1;
           anchor (x2 attrs) (y2 attrs) "x2" "y2" 0 1 ] |};
    {| LinkAnchor.element := element;
       LinkAnchor.points :=
         [ anchor (cx attrs) (y1 attrs) "cx" "y1" 0 (-1) ] |};
    {| LinkAnchor.element := element;
       LinkAnchor.points :=
         [ anchor (cx attrs) (y2 attrs) "cx" "y2" 0 1 ] |};
    {| LinkAnchor.element := element;
       LinkAnchor.points :=
         [ anchor (x1 attrs) (cy attrs) "x1" "cy" (-1) 0 ] |};
    {| LinkAnchor.element := element;
       LinkAnchor.points :=
         [ anchor (x2 attrs) (cy attrs) "x2" "cy" 1 0 ] |} ].

End MoreInteraction.

Section SnappingGuides.
Context `{GraphicsTypes}.

(** ** [getSnappingGuides] *)
Definition getSnappingGuides (this : ImageElementClass)
  : list SnappingGuides.Axis :=
  let attrs := state_attributes this in
  let '(x1, y1, x2, y2, cx, cy) :=
    (x1 attrs, y1 attrs, x2 attrs, y2 attrs, cx attrs, cy attrs) in
  [ {| SnappingGuides.type := Handles.X; SnappingGuides.value := x1;
       SnappingGuides.attribute := "x1" |};
    {| SnappingGuides.type := Handles.X; SnappingGuides.value := x2;
       SnappingGuides.attribute := "x2" |};
    {| SnappingGuides.type := Handles.X; SnappingGuides.value := cx;
       SnappingGuides.attribute := "cx" |};
    {| SnappingGuides.type := Handles.Y; SnappingGuides.value := y1;
       SnappingGuides.attribute := "y1" |};
    {| SnappingGuides.type := Handles.Y; SnappingGuides.value := y2;
       SnappingGuides.attribute := "y2" |};
    {| SnappingGuides.type := Handles.Y; SnappingGuides.value := cy;
       SnappingGuides.attribute := "cy" |} ].

End SnappingGuides.

(** ** The attribute panel

    The widget manager is a service of the host: the mark calls four of its
    methods with the option literals below and returns what they return. *)
Module Controls.
Section WithTypes.
Context `{GraphicsTypes}.

(** Modelled from the spec: the option objects the mark passes, with the
    fields its literals set; a field a literal does not mention is
    [None]. *)
Record Hints := {
  autoRange : option bool;
  rangeNumber : option (Num * Num)
}.

Record NumberOptions := {
  showSlider : option bool;
  sliderRange : option (Num * Num);
  minimum : option Num;
  maximum : option Num
}.

Record MappingEditorOptions := {
  hints : option Hints;
  acceptKinds : option (list DataKind);
  defaultAuto : option bool;
  defaultValue : option AttributeValue;
  numberOptions : option NumberOptions
}.

Record Property := { property : string }.

Record InputSelectOptions := {
  type : string;
  showLabel : bool;
  labels : list string;
  options : list string
}.

(** The four methods the mark calls, as parameters. *)
Class WidgetManager := {
  Widget : Type;
  sectionHeader : string → Widget;
  mappingEditor : string → string → MappingEditorOptions → Widget;
  row : string → Widget → Widget;
  inputSelect : Property → InputSelectOptions → Widget
}.

(** Modelled from the spec: the widgets as the calls that made them, and
    the manager that returns them. *)
Inductive Call :=
| SectionHeader (title : string)
| MappingEditor (name attribute : string) (options : MappingEditorOptions)
| Row (title : string) (widget : Call)
| InputSelect (property : Property) (options : InputSelectOptions).

Definition describing : WidgetManager :=
  {| Widget := Call;
     sectionHeader := SectionHeader;
     mappingEditor := MappingEditor;
     row := Row;
     inputSelect := InputSelect |}.

(** The option literal [{}]. *)
Definition noOptions : MappingEditorOptions :=
  {| hints := None; acceptKinds := None; defaultAuto := None;
     defaultValue := None; numberOptions := None |}.

End WithTypes.
End Controls.

Section Panel.
Context `{GraphicsTypes} {Mapping : Type} {WM : Controls.WidgetManager}.

(** ** [getAttributePanelWidgets]

    [this.object.mappings.stroke != null] asks whether the object has a
    mapping for [stroke]. *)
Definition getAttributePanelWidgets (this : ImageElementObject Mapping)
  : list Controls.Widget :=
  let widgets :=
    [ Controls.sectionHeader "Size";
      Controls.mappingEditor "Width" "width"
        {| Controls.hints :=
             Some {| Controls.autoRange := Some true;
                     Controls.rangeNumber := None |};
           Controls.acceptKinds := Some [Numerical]%list;
           Controls.defaultAuto := Some true;
           Controls.defaultValue := None;
           Controls.numberOptions := None |};
      Controls.mappingEditor "Height" "height"
        {| Controls.hints :=
             Some {| Controls.autoRange := Some true;
                     Controls.rangeNumber := None |};
           Controls.acceptKinds := Some [Numerical]%list;
           Controls.defaultAuto := Some true;
           Controls.defaultValue := None;
           Controls.numberOptions := None |};
      Controls.sectionHeader "Image";
      Controls.mappingEditor "Image" "image" Controls.noOptions;
      Controls.row "Resize Mode"
        (Controls.inputSelect
           {| Controls.property := "imageMode" |}
           {| Controls.type := "dropdown";
              Controls.showLabel := true;
              Controls.labels := ["Letterbox"; "Fill"; "Stretch"]%string;
              Controls.options := ["letterbox"; "fill"; "stretch"]%string |});
      Controls.sectionHeader "Style";
      Controls.mappingEditor "Fill" "fill" Controls.noOptions;
      Controls.mappingEditor "Stroke" "stroke" Controls.noOptions ] in
  let widgets :=
    match object_mappings this !! "stroke" with
    | Some _ =>
      widgets ++
      [ Controls.mappingEditor "Line Width" "strokeWidth"
          {| Controls.hints :=
               Some {| Controls.autoRange := None;
                       Controls.rangeNumber := Some (0, #5) |};
             Controls.acceptKinds := None;
             Controls.defaultAuto := None;
             Controls.defaultValue := Some (AVNumber 1);
             Controls.numberOptions :=
               Some {| Controls.showSlider := Some true;
                       Controls.sliderRange := Some (0, #5);
                       Controls.minimum := Some 0;
                       Controls.maximum := None |} |} ]
    | None => widgets
    end in
  let widgets :=
    widgets ++
    [ Controls.mappingEditor "Opacity" "opacity"
        {| Controls.hints :=
             Some {| Controls.autoRange := None;
                     Controls.rangeNumber := Some (0, 1) |};
           Controls.acceptKinds := None;
           Controls.defaultAuto := None;
           Controls.defaultValue := Some (AVNumber 1);
           Controls.numberOptions :=
             Some {| Controls.showSlider := Some true;
                     Controls.sliderRange := None;
                     Controls.minimum := Some 0;
                     Controls.maximum := Some 1 |} |};
      Controls.mappingEditor "Visibility" "visible"
        {| Controls.hints := None;
           Controls.acceptKinds := None;
           Controls.defaultAuto := None;
           Controls.defaultValue := Some (AVBoolean true);
           Controls.numberOptions := None |} ] in
  widgets.

End Panel.

(** ** Vocabulary of the further properties *)

Section MoreObservers.
Context `{GraphicsTypes}.

(** The current value of a geometric attribute, by name. *)
Definition numberValue (a : ImageElementAttributes) (name : string)
  : option Num :=
  if decide (name = "x1") then Some (x1 a)
  else if decide (name = "y1") then Some (y1 a)
  else if decide (name = "x2") then Some (x2 a)
  else if decide (name = "y2") then Some (y2 a)
  else if decide (name = "cx") then Some (cx a)
  else if decide (name = "cy") then Some (cy a)
  else if decide (name = "width") then Some (width a)
  else if decide (name = "height") then Some (height a)
  else None.

(** The state as an assignment of the solver's variables, when a variable
    is the name of its attribute. *)
Definition currentValues (a : ImageElementAttributes) (name : string) : Num :=
  default 0 (numberValue a name).

Definition byName (a : ImageElementAttributes) (name : string) : string :=
  name.

(** The derived attributes agree with the corners. *)
Definition consistent (a : ImageElementAttributes) : Prop :=
  width a = x2 a - x1 a ∧ height a = y2 a - y1 a ∧
  cx a = (x1 a + x2 a) / 2 ∧ cy a = (y1 a + y2 a) / 2.

(** The axis a geometric attribute lies on. *)
Definition axisOf (name : string) : option Handles.Axis :=
  if decide (name ∈ ["x1"; "x2"; "cx"; "width"]%string) then Some Handles.X
  else if decide (name ∈ ["y1"; "y2"; "cy"; "height"]%string)
  then Some Handles.Y
  else None.

(** The guide a line handle snaps to: same axis, value and attribute. *)
Definition guideOf (h : Handles.Description) : option SnappingGuides.Axis :=
  match h with
  | Handles.Line axis [act] value _ =>
    Some {| SnappingGuides.type := axis; SnappingGuides.value := value;
            SnappingGuides.attribute := Handles.attribute act |}
  | _ => None
  end.

(** That a guide is at the current value of the attribute it names, on
    that attribute's axis. *)
Definition guidePlaced (a : ImageElementAttributes)
    (g : SnappingGuides.Axis) : Prop :=
  numberValue a (SnappingGuides.attribute g) = Some (SnappingGuides.value g) ∧
  axisOf (SnappingGuides.attribute g) = Some (SnappingGuides.type g).

(** All points of a list of anchor groups. *)
Definition anchorPoints (groups : list LinkAnchor.Description)
  : list LinkAnchor.AnchorPoint :=
  concat (LinkAnchor.points <$> groups).

(** That an anchor point is at the current values of the two attributes
    it names, the first on the x axis and the second on the y axis. *)
Definition anchorPlaced (a : ImageElementAttributes)
    (p : LinkAnchor.AnchorPoint) : Prop :=
  numberValue a (LinkAnchor.xAttribute p) = Some (LinkAnchor.x p) ∧
  numberValue a (LinkAnchor.yAttribute p) = Some (LinkAnchor.y p) ∧
  axisOf (LinkAnchor.xAttribute p) = Some Handles.X ∧
  axisOf (LinkAnchor.yAttribute p) = Some Handles.Y.




(** The positions of the point handles. *)
Definition cornerPoints (hs : list Handles.Description) : list Point :=
  omap (λ h, match h with
             | Handles.Point px py _ => Some {| x := px; y := py |}
             | _ => None
             end) hs.

(** The attribute a widget call edits, if it is a mapping editor. *)
Definition editedAttribute (w : Controls.Call) : option string :=
  match w with
  | Controls.MappingEditor _ attribute _ => Some attribute
  | _ => None
  end.

Definition editedAttributes (ws : list Controls.Call) : list string :=
  omap editedAttribute ws.

(** A widget call made with another manager. *)
Fixpoint replay (WM : Controls.WidgetManager) (w : Controls.Call)
  : @Controls.Widget _ WM :=
  match w with
  | Controls.SectionHeader title => Controls.sectionHeader title
  | Controls.MappingEditor name attribute options =>
    Controls.mappingEditor name attribute options
  | Controls.Row title widget => Controls.row title (replay WM widget)
  | Controls.InputSelect property options =>
    Controls.inputSelect property options
  end.

(** That a drop zone lies on a horizontal or on a vertical line. *)
Definition liesOnY (v : Num) (z : DropZones.Line) : Prop :=
  y (DropZones.p1 z) = v ∧ y (DropZones.p2 z) = v.

Definition liesOnX (v : Num) (z : DropZones.Line) : Prop :=
  x (DropZones.p1 z) = v ∧ x (DropZones.p2 z) = v.

(** The top edge of the box is the edge of smaller y when y grows
    downwards and of larger y when y grows upwards ([yUp]); the left edge
    is the edge of smaller x. *)
Definition topEdge (yUp : bool) (a : ImageElementAttributes) : Num :=
  if yUp then Qcmax (y1 a) (y2 a) else Qcmin (y1 a) (y2 a).

Definition leftEdge (a : ImageElementAttributes) : Num :=
  Qcmin (x1 a) (x2 a).

(** That the drop zones are a "width" zone along the top edge and a
    "height" zone along the left edge, under an orientation of y. *)
Definition zonesTopLeft (yUp : bool) (this : ImageElementClass) : Prop :=
  let a := state_attributes this in
  ∃ w h,
    getDropZones this = [w; h]%list ∧
    DropZones.title w = "width"%string ∧ liesOnY (topEdge yUp a) w ∧
    DropZones.title h = "height"%string ∧ liesOnX (leftEdge a) h.

Context {GS : Graphics.Services}.

(** That a manager's run of [getGraphics] shows the image: the result is a
    group among whose elements is the image group with the source expected
    of the [image] attribute. *)
Definition showsImage (this : ImageElementClass)
    (cs : Graphics.CoordinateSystem) (offset : Point) (glyphIndex : Num)
    (resolveResource : string → string) : Prop :=
  ∃ g,
    run resolveResource (getGraphics this cs offset glyphIndex) =
      Some (Graphics.EGroup g) ∧
    imageLayer this cs offset
      (expectedSource resolveResource (image (state_attributes this)))
      ∈ Graphics.elements g.

(** That a manager's run of [getGraphics] shows the fill rectangle, the
    image group and the stroke rectangle, in this order, under the
    opacity. *)
Definition showsFillImageStroke (this : ImageElementClass)
    (cs : Graphics.CoordinateSystem) (offset : Point) (glyphIndex : Num)
    (resolveResource : string → string) (fillColor strokeColor : Color)
  : Prop :=
  ∃ g src,
    run resolveResource (getGraphics this cs offset glyphIndex) =
      Some (Graphics.EGroup g) ∧
    Graphics.elements g =
      [fillLayer this cs offset fillColor; imageLayer this cs offset src;
       strokeLayer this cs offset strokeColor] ∧
    Graphics.style g = Some (opacityStyle (state_attributes this)).

(** That two results of [getGraphics] are groups that show the same image
    group, after [below] elements and before [above] elements each. *)
Definition sameImageGroup (below above : nat)
    (result result' : option Graphics.Element) : Prop :=
  ∃ img t pre post pre' post' style style',
    let imageGroup :=
      Graphics.EGroup
        {| Graphics.elements := [Graphics.EImage img];
           Graphics.transform := t;
           Graphics.style := None |} in
    result =
      Some (Graphics.EGroup
        {| Graphics.elements := pre ++ [imageGroup] ++ post;
           Graphics.transform := defaultTransform;
           Graphics.style := style |}) ∧
    result' =
      Some (Graphics.EGroup
        {| Graphics.elements := pre' ++ [imageGroup] ++ post';
           Graphics.transform := defaultTransform;
           Graphics.style := style' |}) ∧
    length pre = below ∧ length pre' = below ∧
    length post = above ∧ length post' = above.

End MoreObservers.

(** ** More of the concrete host *)
Module Host2.

(** An object with the given state, the default properties and identity
    ["image1"]; [mapped] says whether it has a mapping for [stroke]. *)
Definition object (a : @ImageElementAttributes Host.types) (mapped : bool)
  : @ImageElementObject Host.types unit :=
  {| instance := Host.mark a;
     object_id := "image1";
     object_mappings := if mapped then {["stroke" := tt]} else ∅ |}.

(** A store holding a property that is not an attribute of the mark. *)
Definition foreign : gmap string (@AttributeValue Host.types) :=
  {["note" := AVString "kept"]}.

(** The properties of an object whose [visible] property is off, and the
    mark of such an object. *)
Definition hiddenProperties : ImageElementProperties :=
  {| prop_visible := false; imageMode := Letterbox |}.

Definition hiddenObject (a : @ImageElementAttributes Host.types)
  : @ImageElementClass Host.types :=
  {| object_properties := hiddenProperties; state_attributes := a |}.

(** A manager that answers every request with the same source. *)
Definition constantly (description : string) : string := "blob:1".

End Host2.

(** * Properties *)

(** ** Arithmetic of the literals *)

Lemma Qc_of_Z_half (n m : Z) : (n = 2 * m)%Z → #n / 2 = #m.
Proof.
  intros ->. apply Qc_is_canon. simpl.
  rewrite Qred_correct. unfold Qeq. simpl. lia.
Qed.

Lemma Qc_of_Z_opp (n : Z) : - #n = #(- n).
Proof. apply Qc_is_canon. simpl. by rewrite Qred_correct. Qed.

Section InitializeState.
Context `{GraphicsTypes}.

Lemma initializeState_lookups (attrs : gmap string AttributeValue) :
  let attrs' := initializeState attrs in
  attrs' !! "x1" = Some (AVNumber #(-15)) ∧
  attrs' !! "y1" = Some (AVNumber #(-25)) ∧
  attrs' !! "x2" = Some (AVNumber #15) ∧
  attrs' !! "y2" = Some (AVNumber #25) ∧
  attrs' !! "cx" = Some (AVNumber 0) ∧
  attrs' !! "cy" = Some (AVNumber 0) ∧
  attrs' !! "width" = Some (AVNumber #30) ∧
  attrs' !! "height" = Some (AVNumber #50) ∧
  attrs' !! "stroke" = Some AVNull ∧
  attrs' !! "fill" = Some AVNull ∧
  attrs' !! "strokeWidth" = Some (AVNumber 1) ∧
  attrs' !! "opacity" = Some (AVNumber 1) ∧
  attrs' !! "visible" = Some (AVBoolean true) ∧
  attrs' !! "image" = Some (AVString "").
Proof.
  cbv zeta. unfold initializeState. cbv zeta.
  rewrite !Qc_of_Z_opp.
  rewrite (Qc_of_Z_half (Z.opp 30) (-15)), (Qc_of_Z_half (Z.opp 50) (-25)),
    (Qc_of_Z_half 30 15), (Qc_of_Z_half 50 25) by done.
  repeat split;
    repeat (rewrite lookup_insert_ne by done); by rewrite lookup_insert_eq.
Qed.

End InitializeState.

Section InitializeStateDefaults.
Context `{GraphicsTypes}.

(** C9.  [initializeState] is a total function of the store it is given
    and, whatever that store held, leaves every declared attribute bound to
    its documented default: the corners at (-15, -25, 15, 25), width 30,
    height 50, centre (0, 0), no fill, no stroke, stroke width 1,
    opacity 1, visible, and the empty image reference.  No declared
    attribute is left undefined, and the store then satisfies the mark's
    attribute interface with exactly the default values. *)
Theorem initializeState_sets_defaults (attrs : gmap string AttributeValue) :
  let attrs' := initializeState attrs in
  (attrs' !! "x1" = Some (AVNumber #(-15)) ∧
   attrs' !! "y1" = Some (AVNumber #(-25)) ∧
   attrs' !! "x2" = Some (AVNumber #15) ∧
   attrs' !! "y2" = Some (AVNumber #25) ∧
   attrs' !! "cx" = Some (AVNumber 0) ∧
   attrs' !! "cy" = Some (AVNumber 0) ∧
   attrs' !! "width" = Some (AVNumber #30) ∧
   attrs' !! "height" = Some (AVNumber #50) ∧
   attrs' !! "stroke" = Some AVNull ∧
   attrs' !! "fill" = Some AVNull ∧
   attrs' !! "strokeWidth" = Some (AVNumber 1) ∧
   attrs' !! "opacity" = Some (AVNumber 1) ∧
   attrs' !! "visible" = Some (AVBoolean true) ∧
   attrs' !! "image" = Some (AVString "")) ∧
  Forall (λ name, is_Some (attrs' !! name)) attributeNames ∧
  asImageElementAttributes attrs' = Some defaultAttributes.
Proof.
  intros attrs'.
  pose proof (initializeState_lookups attrs) as L. cbv zeta in L.
  fold attrs' in L.
  destruct L as (Lx1 & Ly1 & Lx2 & Ly2 & Lcx & Lcy & Lw & Lh & Ls & Lf &
                 Lsw & Lo & Lv & Li).
  split; [by repeat split|]. split.
  - unfold attributeNames. repeat constructor; eauto.
  - unfold asImageElementAttributes, readNumber, readColor, readBoolean,
      readImage.
    rewrite Lx1, Ly1, Lx2, Ly2, Lcx, Lcy, Lw, Lh, Ls, Lf, Lsw, Lo, Lv, Li.
    reflexivity.
Qed.

End InitializeStateDefaults.

Section BoundingBox.
Context `{GraphicsTypes}.

Lemma Qcabs_flip (a b : Qc) : Qcabs (a - b) = Qcabs (b - a).
Proof. apply Qcabs_Qcminus. Qed.

Lemma Qcabs_max_min (a b : Qc) : Qcabs (b - a) = Qcmax a b - Qcmin a b.
Proof.
  unfold Qcmax, Qcmin. destruct (decide (a ≤ b)) as [Hab|Hab].
  - apply Qcabs_pos. apply (Qcplus_le_mono_r _ _ a).
    by replace (b - a + a) with b by ring; rewrite Qcplus_0_l.
  - rewrite Qcabs_flip. apply Qcabs_pos. apply (Qcplus_le_mono_r _ _ b).
    replace (a - b + b) with a by ring; rewrite Qcplus_0_l.
    destruct (Qc_le_total a b); done.
Qed.


(** C3.  The bounding box is the rectangle whose centre is the midpoint of
    the corners, whose width and height are the absolute differences of the
    corners, and whose rotation is 0.  Width and height are never negative
    (they are the larger corner minus the smaller one), and exchanging [x1]
    with [x2], or [y1] with [y2], leaves the whole description unchanged. *)
Theorem getBoundingBox_midpoint_abs (this : ImageElementClass) :
  let a := state_attributes this in
  let box := getBoundingBox this in
  box = {| BoundingBox.type := "rectangle";
           BoundingBox.cx := (x1 a + x2 a) / 2;
           BoundingBox.cy := (y1 a + y2 a) / 2;
           BoundingBox.width := Qcabs (x2 a - x1 a);
           BoundingBox.height := Qcabs (y2 a - y1 a);
           BoundingBox.rotation := 0 |} ∧
  BoundingBox.width box = Qcmax (x1 a) (x2 a) - Qcmin (x1 a) (x2 a) ∧
  BoundingBox.height box = Qcmax (y1 a) (y2 a) - Qcmin (y1 a) (y2 a) ∧
  0 ≤ BoundingBox.width box ∧
  0 ≤ BoundingBox.height box ∧
  getBoundingBox (swapX this) = box ∧
  getBoundingBox (swapY this) = box.
Proof.
  intros a box. subst box. unfold getBoundingBox. fold a. simpl.
  unfold Math_abs.
  repeat split.
  - apply Qcabs_max_min.
  - apply Qcabs_max_min.
  - apply Qcabs_nonneg.
  - apply Qcabs_nonneg.
  - by rewrite (Qcplus_comm (x2 a)), (Qcabs_flip (x1 a)).
  - by rewrite (Qcplus_comm (y2 a)), (Qcabs_flip (y1 a)).
Qed.

(** The documented scenario: the default corners give the box of width 30
    and height 50 centred at the origin. *)
Lemma getBoundingBox_defaults (properties : ImageElementProperties) :
  getBoundingBox
    {| object_properties := properties;
       state_attributes := defaultAttributes |} =
  {| BoundingBox.type := "rectangle";
     BoundingBox.cx := 0; BoundingBox.cy := 0;
     BoundingBox.width := #30; BoundingBox.height := #50;
     BoundingBox.rotation := 0 |}.
Proof.
  unfold getBoundingBox. simpl. unfold Math_abs.
  f_equal; by apply Qc_is_canon.
Qed.

End BoundingBox.

Section BuildConstraints.
Context `{GraphicsTypes}.

(** Against any solver the method is four [addLinear] calls on the eight
    handles [attrs] returns: the array pattern always matches. *)
Lemma buildConstraints_calls {CS : ConstraintSolver}
    (this : ImageElementClass) (solver : Solver) :
  ∃ x1 y1 x2 y2 cx cy width height,
    attrs solver (state_attributes this)
      ["x1"; "y1"; "x2"; "y2"; "cx"; "cy"; "width"; "height"]%string
    = [x1; y1; x2; y2; cx; cy; width; height] ∧
    buildConstraints this solver =
    addLinear
      (addLinear
         (addLinear
            (addLinear solver HARD 0 [(1, x2); (-1, x1)] [(1, width)])
            HARD 0 [(1, y2); (-1, y1)] [(1, height)])
         HARD 0 [(2, cx)] [(1, x1); (1, x2)])
      HARD 0 [(2, cy)] [(1, y1); (1, y2)].
Proof.
  unfold buildConstraints.
  pose proof (attrs_length solver (state_attributes this)
    ["x1"; "y1"; "x2"; "y2"; "cx"; "cy"; "width"; "height"]%string) as L.
  destruct (attrs _ _ _) as [|a [|b [|c [|d [|e [|f [|g [|h [|? ?]]]]]]]]];
    simpl in L; try discriminate L.
  by exists a, b, c, d, e, f, g, h.
Qed.

Lemma holds_difference {V} (ρ : V → Num) (p q r : V) :
  holds ρ (MkLinear HARD 0 [(1, p); (-1, q)] [(1, r)]) ↔ ρ p - ρ q = ρ r.
Proof.
  unfold holds, linear. simpl.
  replace (0 + (1 * ρ p + (-1 * ρ q + 0))) with (ρ p - ρ q) by ring.
  by replace (1 * ρ r + 0) with (ρ r) by ring.
Qed.

Lemma holds_midpoint {V} (ρ : V → Num) (c p q : V) :
  holds ρ (MkLinear HARD 0 [(2, c)] [(1, p); (1, q)]) ↔
  2 * ρ c = ρ p + ρ q.
Proof.
  unfold holds, linear. simpl.
  replace (0 + (2 * ρ c + 0)) with (2 * ρ c) by ring.
  by replace (1 * ρ p + (1 * ρ q + 0)) with (ρ p + ρ q) by ring.
Qed.

(** C1.  Whatever the attribute state, [buildConstraints] registers exactly
    four equations, after whatever the solver already holds and in this
    order: [x2 - x1 = width], [y2 - y1 = height], [2 cx = x1 + x2] and
    [2 cy = y1 + y2], each of strength HARD and with constant 0.  The
    attribute state enters only through the handles the solver hands out
    for it: strengths, constants and coefficients are the same for every
    two states. *)
Theorem buildConstraints_emits {V : Type}
    (bind : ImageElementAttributes → string → V)
    (this this' : ImageElementClass) (log : list (Linear V)) :
  let v := bind (state_attributes this) in
  let widthEq := MkLinear HARD 0 [(1, v "x2"); (-1, v "x1")] [(1, v "width")] in
  let heightEq :=
    MkLinear HARD 0 [(1, v "y2"); (-1, v "y1")] [(1, v "height")] in
  let cxEq := MkLinear HARD 0 [(2, v "cx")] [(1, v "x1"); (1, v "x2")] in
  let cyEq := MkLinear HARD 0 [(2, v "cy")] [(1, v "y1"); (1, v "y2")] in
  recorded bind this log = log ++ [widthEq; heightEq; cxEq; cyEq] ∧
  Forall (λ c, strength c = HARD ∧ bias c = 0)
    [widthEq; heightEq; cxEq; cyEq] ∧
  (∀ ρ, holds ρ widthEq ↔ ρ (v "x2") - ρ (v "x1") = ρ (v "width")) ∧
  (∀ ρ, holds ρ heightEq ↔ ρ (v "y2") - ρ (v "y1") = ρ (v "height")) ∧
  (∀ ρ, holds ρ cxEq ↔ 2 * ρ (v "cx") = ρ (v "x1") + ρ (v "x2")) ∧
  (∀ ρ, holds ρ cyEq ↔ 2 * ρ (v "cy") = ρ (v "y1") + ρ (v "y2")) ∧
  shape <$> recorded bind this' [] = shape <$> recorded bind this [].
Proof.
  intros v widthEq heightEq cxEq cyEq.
  split; [|split; [|split; [|split; [|split; [|split]]]]].
  - unfold recorded, buildConstraints. simpl.
    by rewrite <- !(assoc_L (++)).
  - by repeat constructor.
  - intros ρ. apply holds_difference.
  - intros ρ. apply holds_difference.
  - intros ρ. apply holds_midpoint.
  - intros ρ. apply holds_midpoint.
  - reflexivity.
Qed.

End BuildConstraints.

Section GetGraphics.
Context `{GraphicsTypes} {GS : Graphics.Services}.

Implicit Types (this : ImageElementClass) (cs : Graphics.CoordinateSystem).
Implicit Types (offset : Point) (glyphIndex : Num).
Implicit Types (resolveResource : string → string).

(** The hidden mark: the method returns [null] at once. *)
Lemma getGraphics_hidden this cs offset glyphIndex :
  visible (state_attributes this) = false ∨
  prop_visible (object_properties this) = false →
  getGraphics this cs offset glyphIndex = Ret None.
Proof.
  unfold getGraphics. cbv zeta.
  by intros [-> | ->]; [|rewrite orb_true_r].
Qed.

(** The visible mark: one group, the layers in drawing order, the opacity
    as its style. *)
Lemma getGraphics_shown this cs offset glyphIndex resolveResource :
  visible (state_attributes this) = true →
  prop_visible (object_properties this) = true →
  let a := state_attributes this in
  run resolveResource (getGraphics this cs offset glyphIndex) =
    Some (Graphics.EGroup
      {| Graphics.elements :=
           layers this cs offset (expectedSource resolveResource (image a));
         Graphics.transform := defaultTransform;
         Graphics.style := Some (opacityStyle a) |}) ∧
  requests resolveResource (getGraphics this cs offset glyphIndex) =
    expectedRequests (image a).
Proof.
  intros Hv Hp a. subst a. unfold getGraphics, layers, expectedSource,
    expectedRequests. cbv zeta. rewrite Hv, Hp. simpl.
  destruct (image _) as [[|c d]|], (fill _), (stroke _); by split.
Qed.

(** C2.  [getGraphics] returns [null] exactly when the [visible] attribute
    of the instance or the [visible] property of its object is false; in
    every other case it returns a group.  The [null] is an ordinary result:
    the method then returns at once, without asking the manager for
    anything. *)
Theorem getGraphics_null_iff this cs offset glyphIndex resolveResource :
  let output := getGraphics this cs offset glyphIndex in
  let result := run resolveResource output in
  (result = None ↔
   visible (state_attributes this) = false ∨
   prop_visible (object_properties this) = false) ∧
  (result = None ∨ ∃ g, result = Some (Graphics.EGroup g)) ∧
  (result = None ↔ output = Ret None).
Proof.
  intros output result. subst output result.
  destruct (visible (state_attributes this)) eqn:Hv,
    (prop_visible (object_properties this)) eqn:Hp.
  - destruct (getGraphics_shown this cs offset glyphIndex resolveResource
      Hv Hp) as [E _].
    rewrite E. split; [|split].
    + split; [done | by intros [?|?]].
    + right. eauto.
    + split; [done|]. intros E'. by rewrite E' in E.
  - rewrite (getGraphics_hidden this cs offset glyphIndex) by auto.
    simpl. by repeat split; auto.
  - rewrite (getGraphics_hidden this cs offset glyphIndex) by auto.
    simpl. by repeat split; auto.
  - rewrite (getGraphics_hidden this cs offset glyphIndex) by auto.
    simpl. by repeat split; auto.
Qed.

(** C6.  For a visible mark the render tree is one group holding, between
    the optional fill rectangle and the optional stroke rectangle, the
    group of a single image primitive.  If the [image] attribute is the
    empty string or [null], that primitive's source is the built-in
    placeholder and the manager receives no request; otherwise the manager
    is asked once, for the attribute's value, and the source is its answer.
    In the default state the group holds the placeholder image group and
    nothing else. *)
Theorem getGraphics_image_source this cs offset glyphIndex resolveResource :
  visible (state_attributes this) = true →
  prop_visible (object_properties this) = true →
  let a := state_attributes this in
  let output := getGraphics this cs offset glyphIndex in
  let this0 := withAttributes this defaultAttributes in
  (∃ src img t,
     run resolveResource output =
       Some (Graphics.EGroup
         {| Graphics.elements :=
              option_list (fillLayer this cs offset <$> fill a) ++
              [imageLayer this cs offset src] ++
              option_list (strokeLayer this cs offset <$> stroke a);
            Graphics.transform := defaultTransform;
            Graphics.style := Some (opacityStyle a) |}) ∧
     imageLayer this cs offset src =
       Graphics.EGroup
         {| Graphics.elements := [Graphics.EImage img];
            Graphics.transform := t;
            Graphics.style := None |} ∧
     Graphics.src img = src ∧
     match image a with
     | None | Some "" =>
       src = imagePlaceholder ∧ requests resolveResource output = []
     | Some description =>
       src = resolveResource description ∧
       requests resolveResource output = [description]%list
     end) ∧
  run resolveResource (getGraphics this0 cs offset glyphIndex) =
    Some (Graphics.EGroup
      {| Graphics.elements := [imageLayer this0 cs offset imagePlaceholder];
         Graphics.transform := defaultTransform;
         Graphics.style := Some (opacityStyle defaultAttributes) |}) ∧
  requests resolveResource (getGraphics this0 cs offset glyphIndex) = [].
Proof.
  intros Hv Hp a output this0.
  destruct (getGraphics_shown this cs offset glyphIndex resolveResource
    Hv Hp) as [E R].
  split.
  - exists (expectedSource resolveResource (image a)).
    eexists _, _. split; [exact E|]. split; [reflexivity|].
    split; [reflexivity|].
    fold a output in R. rewrite R.
    by destruct (image a) as [[|c d]|].
  - by apply (getGraphics_shown this0 cs offset glyphIndex resolveResource).
Qed.

(** C7.  For a visible mark whose [fill] and [stroke] are both colours, the
    returned group holds exactly three elements in this order: the
    rectangle of the box filled with [fill] and without stroke, the image
    group, and the rectangle of the box stroked with [stroke] at the
    configured stroke width with a miter join and without fill.  The group
    carries the instance's [opacity] as its style. *)
Theorem getGraphics_fill_image_stroke this cs offset glyphIndex
    resolveResource (fillColor strokeColor : Color) :
  visible (state_attributes this) = true →
  prop_visible (object_properties this) = true →
  fill (state_attributes this) = Some fillColor →
  stroke (state_attributes this) = Some strokeColor →
  let a := state_attributes this in
  let corners (style : Graphics.Style) :=
    Graphics.rect cs (x1 a + x offset) (y1 a + y offset)
      (x2 a + x offset) (y2 a + y offset) style in
  ∃ src,
    run resolveResource (getGraphics this cs offset glyphIndex) =
      Some (Graphics.EGroup
        {| Graphics.elements :=
             [ corners
                 {| Graphics.strokeColor := None;
                    Graphics.strokeWidth := None;
                    Graphics.strokeLinejoin := None;
                    Graphics.fillColor := Some fillColor;
                    Graphics.opacity := None |};
               imageLayer this cs offset src;
               corners
                 {| Graphics.strokeColor := Some strokeColor;
                    Graphics.strokeWidth := Some (strokeWidth a);
                    Graphics.strokeLinejoin := Some Graphics.miter;
                    Graphics.fillColor := None;
                    Graphics.opacity := None |} ];
           Graphics.transform := defaultTransform;
           Graphics.style :=
             Some {| Graphics.strokeColor := None;
                     Graphics.strokeWidth := None;
                     Graphics.strokeLinejoin := None;
                     Graphics.fillColor := None;
                     Graphics.opacity := Some (opacity a) |} |}).
Proof.
  intros Hv Hp Hf Hs a corners.
  destruct (getGraphics_shown this cs offset glyphIndex resolveResource
    Hv Hp) as [E _].
  exists (expectedSource resolveResource (image a)).
  rewrite E. unfold layers. by rewrite Hf, Hs.
Qed.


End GetGraphics.

Section InteractionGeometry.
Context `{GraphicsTypes}.

Implicit Types (this : ImageElementClass).

Lemma Qcmin_max_ordered (p q : Qc) : (p, q) = (Qcmin p q, Qcmax p q) ↔ p ≤ q.
Proof.
  unfold Qcmin, Qcmax. destruct (decide (p ≤ q)) as [L|L]; [done|].
  split; [|done]. intros E. injection E as -> _. apply Qcle_refl.
Qed.

Lemma Qcmin_max_flipped (p q : Qc) : ¬ p ≤ q → (Qcmin p q, Qcmax p q) = (q, p).
Proof. intros L. unfold Qcmin, Qcmax. by destruct (decide (p ≤ q)). Qed.

(** C4, as the code has it.  Each x-axis line handle has the span
    [(y1, y2)] and each y-axis line handle the span [(x1, x2)]: the two
    corners of the opposite axis in the order the store holds them, not
    sorted.  The ends of the span are therefore always the smaller and the
    larger corner, in one order or the other, and every span is the sorted
    interval exactly when [x1 ≤ x2] and [y1 ≤ y2]. *)
Theorem getHandles_span_corners this :
  let a := state_attributes this in
  Forall (spanCorners a) (getHandles this) ∧
  Forall (spanEnds a) (getHandles this) ∧
  (Forall (spanSorted a) (getHandles this) ↔ x1 a ≤ x2 a ∧ y1 a ≤ y2 a).
Proof.
  intros a. unfold getHandles. fold a. cbv zeta beta iota.
  split; [by repeat constructor|]. split.
  - repeat constructor; simpl; done.
  - split.
    + intros S. apply Forall_cons_1 in S as [Sy S].
      do 2 apply Forall_cons_1 in S as [_ S].
      apply Forall_cons_1 in S as [Sx _].
      split; by apply Qcmin_max_ordered.
    + intros [Lx Ly].
      apply Qcmin_max_ordered in Lx, Ly. by repeat constructor.
Qed.

Lemma Qcmin_eq_l (p q : Qc) : p = Qcmin p q ↔ p ≤ q.
Proof.
  unfold Qcmin. destruct (decide (p ≤ q)) as [L|L]; [done|].
  split; [|done]. intros ->. apply Qcle_refl.
Qed.

Lemma Qcmax_eq_l (p q : Qc) : p = Qcmax p q ↔ q ≤ p.
Proof.
  unfold Qcmax. destruct (decide (p ≤ q)) as [L|L].
  - split.
    + intros ->. apply Qcle_refl.
    + intros L'. by apply Qcle_antisym.
  - split; [|done]. intros _. by destruct (Qc_le_total p q).
Qed.

(** C5, as the code has it.  [getDropZones] returns exactly two zones, both
    lines.  The first, titled "width", runs along the edge [y = y1] from
    the corner at [x2] to the corner at [x1]; the second, titled "height",
    runs along the edge [x = x1] from the corner at [y1] to the corner at
    [y2].  Each accepts numerical data and maps a drop to scale inference
    on the attribute of its title, of type number, with auto-ranging on.
    The edges are those of the first stored corner, not the top and the
    left edge of the box as drawn: the "width" zone is on the edge of
    smaller y exactly when [y1 ≤ y2] and on the edge of larger y exactly
    when [y2 ≤ y1], the "height" zone on the edge of smaller x exactly when
    [x1 ≤ x2] and of larger x exactly when [x2 ≤ x1].  So the zones are
    along the top and the left edge exactly when [x1 ≤ x2] and, with y
    growing downwards, [y1 ≤ y2], or with y growing upwards,
    [y2 ≤ y1]. *)
Theorem getDropZones_stored_edges this :
  let a := state_attributes this in
  ∃ w h,
    getDropZones this = [w; h]%list ∧
    (DropZones.type w = "line"%string ∧
     DropZones.title w = "width"%string ∧
     DropZones.p1 w = {| x := x2 a; y := y1 a |} ∧
     DropZones.p2 w = {| x := x1 a; y := y1 a |} ∧
     DropZones.kind (DropZones.accept w) = Numerical ∧
     DropZones.scaleInference (DropZones.dropAction w) =
       {| DropZones.attribute := "width";
          DropZones.attributeType := Number;
          DropZones.hints := {| DropZones.autoRange := true |} |}) ∧
    (DropZones.type h = "line"%string ∧
     DropZones.title h = "height"%string ∧
     DropZones.p1 h = {| x := x1 a; y := y1 a |} ∧
     DropZones.p2 h = {| x := x1 a; y := y2 a |} ∧
     DropZones.kind (DropZones.accept h) = Numerical ∧
     DropZones.scaleInference (DropZones.dropAction h) =
       {| DropZones.attribute := "height";
          DropZones.attributeType := Number;
          DropZones.hints := {| DropZones.autoRange := true |} |}) ∧
    (liesOnY (Qcmin (y1 a) (y2 a)) w ↔ y1 a ≤ y2 a) ∧
    (liesOnY (Qcmax (y1 a) (y2 a)) w ↔ y2 a ≤ y1 a) ∧
    (liesOnX (Qcmin (x1 a) (x2 a)) h ↔ x1 a ≤ x2 a) ∧
    (liesOnX (Qcmax (x1 a) (x2 a)) h ↔ x2 a ≤ x1 a) ∧
    (zonesTopLeft false this ↔ x1 a ≤ x2 a ∧ y1 a ≤ y2 a) ∧
    (zonesTopLeft true this ↔ x1 a ≤ x2 a ∧ y2 a ≤ y1 a).
Proof.
  intros a.
  assert (T : ∀ yUp, zonesTopLeft yUp this ↔
                     x1 a = leftEdge a ∧ y1 a = topEdge yUp a).
  { intros yUp. unfold zonesTopLeft, getDropZones, liesOnY, liesOnX.
    cbv zeta beta iota. fold a. split.
    - intros (w & h & E & _ & [Hy _] & _ & [Hx _]).
      injection E as <- <-. by split.
    - intros [Hx Hy]. eexists _, _. split; [reflexivity|]. simpl.
      by rewrite <- Hx, <- Hy. }
  unfold getDropZones. fold a. cbv zeta beta iota.
  eexists _, _. split; [reflexivity|].
  split; [by repeat split|]. split; [by repeat split|].
  unfold liesOnY, liesOnX. simpl.
  split; [rewrite <- Qcmin_eq_l; tauto|].
  split; [rewrite <- Qcmax_eq_l; tauto|].
  split; [rewrite <- Qcmin_eq_l; tauto|].
  split; [rewrite <- Qcmax_eq_l; tauto|].
  split.
  - rewrite (T false). unfold leftEdge, topEdge.
    by rewrite !Qcmin_eq_l.
  - rewrite (T true). unfold leftEdge, topEdge.
    by rewrite Qcmin_eq_l, Qcmax_eq_l.
Qed.

(** C8.  [getHandles] returns eight handles, four lines and four points.
    The line handles write, one attribute each, [x1], [x2], [y1] and [y2];
    the point handles write the pairs [(x1, y1)], [(x1, y2)], [(x2, y1)]
    and [(x2, y2)], two attributes each and no other.  Every handle sits at
    the current value of what it writes: a line at the value of its
    attribute, a point at the corner its two attributes describe. *)
Theorem getHandles_lines_and_points this :
  let a := state_attributes this in
  let handles := getHandles this in
  length handles = 8%nat ∧
  length (lineHandles handles) = 4%nat ∧
  length (pointHandles handles) = 4%nat ∧
  targets <$> lineHandles handles =
    [["x1"]%list; ["x2"]%list; ["y1"]%list; ["y2"]%list]%string ∧
  targets <$> pointHandles handles =
    [["x1"; "y1"]; ["x1"; "y2"]; ["x2"; "y1"]; ["x2"; "y2"]]%string ∧
  Forall (handlePlaced a) handles.
Proof.
  intros a handles. subst handles. unfold getHandles. fold a.
  cbv zeta beta iota.
  repeat (split; [reflexivity|]).
  repeat constructor; cbn; set_solver.
Qed.

End InteractionGeometry.

(** * The properties at concrete states *)

Lemma Qc_25_not_le : ¬ #25 ≤ #(-25).
Proof. apply Qclt_not_le. by vm_compute. Qed.

(** C4 fails as stated.  On the box dragged past its opposite corner, with
    [y1 = 25] and [y2 = -25], the first x-axis line handle has the span
    [(25, -25)], while the sorted interval is [(-25, 25)]. *)
Lemma getHandles_span_flipped_unsorted :
  head (getHandles (Host.mark Host.flipped)) =
    Some (Handles.Line Handles.X [lineAction "x1"] #15 (#25, #(-25))) ∧
  (Qcmin #25 #(-25), Qcmax #25 #(-25)) = (#(-25), #25) ∧
  ¬ Forall (spanSorted Host.flipped) (getHandles (Host.mark Host.flipped)).
Proof.
  split; [reflexivity|]. split.
  - apply Qcmin_max_flipped, Qc_25_not_le.
  - intros S. apply Forall_cons_1 in S as [S _]. simpl in S.
    apply Qcmin_max_ordered in S. by apply Qc_25_not_le.
Qed.

(** C6 at the default state under the Cartesian host: the group holds the
    placeholder image group and nothing else, and the manager is not
    asked. *)
Lemma getGraphics_image_source_defaults :
  visible Host.defaults = true ∧
  prop_visible Host.properties = true ∧
  run Host.resolveResource
    (@getGraphics Host.types Host.services (Host.mark Host.defaults)
       Host.cartesian Host.origin 0) =
    Some (Graphics.EGroup
      {| Graphics.elements :=
           [@imageLayer Host.types Host.services (Host.mark Host.defaults)
              Host.cartesian Host.origin imagePlaceholder];
         Graphics.transform := @defaultTransform Host.types;
         Graphics.style := Some (opacityStyle Host.defaults) |}) ∧
  requests Host.resolveResource
    (@getGraphics Host.types Host.services (Host.mark Host.defaults)
       Host.cartesian Host.origin 0) = [].
Proof.
  split; [reflexivity|]. split; [reflexivity|].
  exact (proj2 (@getGraphics_image_source Host.types Host.services
    (Host.mark Host.defaults) Host.cartesian Host.origin 0
    Host.resolveResource eq_refl eq_refl)).
Defined.

(** C7 at a state with both colours set: fill rectangle, image group,
    stroke rectangle. *)
Lemma getGraphics_fill_image_stroke_styled :
  visible Host.styled = true ∧
  prop_visible Host.properties = true ∧
  fill Host.styled = Some Host.white ∧
  stroke Host.styled = Some Host.black ∧
  ∃ src,
    run Host.resolveResource
      (@getGraphics Host.types Host.services (Host.mark Host.styled)
         Host.cartesian Host.origin 0) =
    Some (Graphics.EGroup
      {| Graphics.elements :=
           [ Graphics.ERect (#(-15) + 0) (#(-25) + 0) (#15 + 0) (#25 + 0)
               {| Graphics.strokeColor := None;
                  Graphics.strokeWidth := None;
                  Graphics.strokeLinejoin := None;
                  Graphics.fillColor := Some Host.white;
                  Graphics.opacity := None |};
             @imageLayer Host.types Host.services (Host.mark Host.styled)
               Host.cartesian Host.origin src;
             Graphics.ERect (#(-15) + 0) (#(-25) + 0) (#15 + 0) (#25 + 0)
               {| Graphics.strokeColor := Some Host.black;
                  Graphics.strokeWidth := Some 2;
                  Graphics.strokeLinejoin := Some Graphics.miter;
                  Graphics.fillColor := None;
                  Graphics.opacity := None |} ];
         Graphics.transform := @defaultTransform Host.types;
         Graphics.style :=
           Some {| Graphics.strokeColor := None;
                   Graphics.strokeWidth := None;
                   Graphics.strokeLinejoin := None;
                   Graphics.fillColor := None;
                   Graphics.opacity := Some (1 / 2) |} |}).
Proof.
  do 4 (split; [reflexivity|]).
  exact (@getGraphics_fill_image_stroke Host.types Host.services
    (Host.mark Host.styled) Host.cartesian Host.origin 0
    Host.resolveResource Host.white Host.black
    eq_refl eq_refl eq_refl eq_refl).
Defined.


(** * Further properties of the class *)

Section InitializeStateMore.
Context `{GraphicsTypes}.

Implicit Types (attrs : gmap string AttributeValue).

(** The writes of [initializeState] as one map laid over the store. *)
Lemma initializeState_union attrs :
  initializeState attrs = initializeState ∅ ∪ attrs.
Proof.
  unfold initializeState. cbv zeta.
  by rewrite <- !insert_union_l, (left_id_L ∅ (∪)).
Qed.

Lemma initializeState_empty_dom :
  dom (initializeState (∅ : gmap string AttributeValue)) =
  list_to_set attributeNames.
Proof.
  unfold initializeState. cbv zeta.
  rewrite !dom_insert_L, dom_empty_L. unfold attributeNames. simpl.
  set_solver.
Qed.

Lemma initializeState_empty_lookup (name : string) :
  is_Some (initializeState (∅ : gmap string AttributeValue) !! name) ↔
  name ∈ attributeNames.
Proof.
  rewrite <- elem_of_dom, initializeState_empty_dom.
  by rewrite elem_of_list_to_set.
Qed.

(** X1.  [initializeState] writes the declared attributes and nothing
    else: a property of the store under any other name keeps the value it
    had, or stays unbound. *)
Theorem initializeState_keeps_other_properties attrs (name : string) :
  name ∉ attributeNames →
  initializeState attrs !! name = attrs !! name.
Proof.
  intros Hn. rewrite initializeState_union.
  apply lookup_union_r. apply eq_None_not_Some.
  by rewrite initializeState_empty_lookup.
Qed.

(** X2.  The state [initializeState] leaves does not depend on what the
    declared attributes held before: it is the defaults laid over the
    store, so overwriting a declared attribute beforehand changes nothing,
    running it twice is the same as running it once, and afterwards the
    store binds exactly the declared attributes beside what it bound. *)
Theorem initializeState_resets attrs :
  initializeState attrs = initializeState ∅ ∪ attrs ∧
  Forall (λ name, ∀ v, initializeState (<[name := v]> attrs) =
                       initializeState attrs) attributeNames ∧
  initializeState (initializeState attrs) = initializeState attrs ∧
  dom (initializeState attrs) = list_to_set attributeNames ∪ dom attrs.
Proof.
  split; [apply initializeState_union|]. split; [|split].
  - apply list.Forall_forall. intros name Hn v.
    rewrite (initializeState_union (<[name := v]> attrs)),
      (initializeState_union attrs).
    apply initializeState_empty_lookup in Hn as [d Hd].
    apply map_eq. intros k. rewrite !lookup_union.
    destruct (decide (k = name)) as [->|Hk].
    + by rewrite Hd, lookup_insert_eq; destruct (attrs !! name).
    + by rewrite lookup_insert_ne.
  - rewrite (initializeState_union (initializeState attrs)),
      (initializeState_union attrs).
    by rewrite (assoc_L (∪)), (idemp_L (∪)).
  - by rewrite initializeState_union, dom_union_L,
      initializeState_empty_dom.
Qed.

(** X3.  The static [defaultMappingValues] and [initializeState] agree:
    every attribute the static member gives a value gets that value from
    [initializeState], whatever the store held. *)
Theorem defaultMappingValues_initialized attrs :
  defaultMappingValues ⊆ initializeState attrs.
Proof.
  apply map_subseteq_spec. intros k v Hk.
  pose proof (initializeState_lookups attrs) as L. cbv zeta in L.
  destruct L as (_ & _ & _ & _ & _ & _ & _ & _ & _ & _ & Lsw & Lo & Lv & _).
  unfold defaultMappingValues in Hk.
  apply lookup_insert_Some in Hk as [[<- <-]|[_ Hk]]; [done|].
  apply lookup_insert_Some in Hk as [[<- <-]|[_ Hk]]; [done|].
  apply lookup_insert_Some in Hk as [[<- <-]|[_ Hk]]; [done|].
  by rewrite lookup_empty in Hk.
Qed.

End InitializeStateMore.

Section ConstraintsMore.
Context `{GraphicsTypes}.

Lemma Qc_two_nonzero : (2 : Qc) ≠ 0.
Proof. apply (bool_decide_unpack _). by vm_compute. Qed.

Lemma Qc_double_half (c s : Qc) : 2 * c = s ↔ c = s / 2.
Proof.
  split.
  - intros <-. field. apply Qc_two_nonzero.
  - intros ->. field. apply Qc_two_nonzero.
Qed.

Lemma Qc_difference_sym (p q r : Qc) : p - q = r ↔ r = p - q.
Proof. split; by intros ->. Qed.

(** What the mark registers holds under an assignment exactly when the
    assignment gives the derived attributes their values from the
    corners. *)
Lemma recorded_holds {V : Type} (bind : ImageElementAttributes → string → V)
    (this : ImageElementClass) (ρ : V → Num) :
  let v := bind (state_attributes this) in
  Forall (holds ρ) (recorded bind this []) ↔
  ρ (v "width") = ρ (v "x2") - ρ (v "x1") ∧
  ρ (v "height") = ρ (v "y2") - ρ (v "y1") ∧
  ρ (v "cx") = (ρ (v "x1") + ρ (v "x2")) / 2 ∧
  ρ (v "cy") = (ρ (v "y1") + ρ (v "y2")) / 2.
Proof.
  intros v. unfold recorded, buildConstraints. simpl. fold v.
  rewrite !list.Forall_cons, list.Forall_nil.
  rewrite !holds_difference, !holds_midpoint.
  rewrite !Qc_double_half, !Qc_difference_sym. tauto.
Qed.

(** X4.  The four equations determine the derived attributes from the
    corners: an assignment of the solver's variables satisfies everything
    the mark registers exactly when it gives [width], [height], [cx] and
    [cy] the values [x2 - x1], [y2 - y1], [(x1 + x2) / 2] and
    [(y1 + y2) / 2].  In particular the current state of the mark
    satisfies its own constraints exactly when its derived attributes are
    consistent with its corners. *)
Theorem buildConstraints_determines_derived {V : Type}
    (bind : ImageElementAttributes → string → V)
    (this : ImageElementClass) (ρ : V → Num) :
  let a := state_attributes this in
  let v := bind a in
  (Forall (holds ρ) (recorded bind this []) ↔
   ρ (v "width") = ρ (v "x2") - ρ (v "x1") ∧
   ρ (v "height") = ρ (v "y2") - ρ (v "y1") ∧
   ρ (v "cx") = (ρ (v "x1") + ρ (v "x2")) / 2 ∧
   ρ (v "cy") = (ρ (v "y1") + ρ (v "y2")) / 2) ∧
  (Forall (holds (currentValues a)) (recorded byName this []) ↔
   consistent a).
Proof.
  intros a v. split; [apply recorded_holds|].
  by rewrite recorded_holds.
Qed.

(** X5.  After a solve the bounding box agrees with the solved attributes:
    if an assignment keeps the corners of the state and satisfies what the
    mark registers, then its [cx] and [cy] are the centre of the bounding
    box and the absolute values of its [width] and [height] are the size of
    the bounding box.  The solved [width] itself is [x2 - x1], negative on
    a box flipped along x. *)
Theorem solved_attributes_match_boundingBox {V : Type}
    (bind : ImageElementAttributes → string → V)
    (this : ImageElementClass) (ρ : V → Num) :
  let a := state_attributes this in
  let v := bind a in
  let box := getBoundingBox this in
  ρ (v "x1") = x1 a → ρ (v "y1") = y1 a →
  ρ (v "x2") = x2 a → ρ (v "y2") = y2 a →
  Forall (holds ρ) (recorded bind this []) →
  ρ (v "cx") = BoundingBox.cx box ∧
  ρ (v "cy") = BoundingBox.cy box ∧
  Qcabs (ρ (v "width")) = BoundingBox.width box ∧
  Qcabs (ρ (v "height")) = BoundingBox.height box ∧
  ρ (v "width") = x2 a - x1 a ∧
  ρ (v "height") = y2 a - y1 a.
Proof.
  intros a v box Ex1 Ey1 Ex2 Ey2 S.
  apply recorded_holds in S as (Sw & Sh & Sx & Sy). fold a v in Sw, Sh, Sx, Sy.
  rewrite Ex1, Ex2 in Sw, Sx. rewrite Ey1, Ey2 in Sh, Sy.
  subst box. unfold getBoundingBox, Math_abs. fold a. simpl.
  by rewrite Sw, Sh, Sx, Sy.
Qed.

Lemma consistent_defaults : consistent defaultAttributes.
Proof. unfold consistent. simpl. repeat split; by apply Qc_is_canon. Qed.

(** X6.  A freshly initialized mark already satisfies its own constraints:
    whatever the store held, after [initializeState] it reads through the
    attribute interface as a state whose derived attributes are consistent
    with its corners, and that state satisfies every equation
    [buildConstraints] registers for it. *)
Theorem initializeState_satisfies_constraints
    (attrs : gmap string AttributeValue)
    (properties : ImageElementProperties) :
  ∃ a,
    asImageElementAttributes (initializeState attrs) = Some a ∧
    consistent a ∧
    Forall (holds (currentValues a))
      (recorded byName
         {| object_properties := properties; state_attributes := a |} []).
Proof.
  exists defaultAttributes. split.
  - pose proof (initializeState_lookups attrs) as L. cbv zeta in L.
    destruct L as (Lx1 & Ly1 & Lx2 & Ly2 & Lcx & Lcy & Lw & Lh & Ls & Lf &
                   Lsw & Lo & Lv & Li).
    unfold asImageElementAttributes, readNumber, readColor, readBoolean,
      readImage.
    by rewrite Lx1, Ly1, Lx2, Ly2, Lcx, Lcy, Lw, Lh, Ls, Lf, Lsw, Lo, Lv, Li.
  - split; [apply consistent_defaults|].
    apply recorded_holds. apply consistent_defaults.
Qed.

(** X7.  Emission is append-only and does not look at what the solver
    holds: a call adds the same four equations after whatever was
    registered, so two marks emit in call order and a mark asked twice is
    registered twice, eight equations in all. *)
Theorem buildConstraints_appends {V : Type}
    (bind : ImageElementAttributes → string → V)
    (this this' : ImageElementClass) (log : list (Linear V)) :
  recorded bind this log = log ++ recorded bind this [] ∧
  length (recorded bind this log) = (length log + 4)%nat ∧
  recorded bind this' (recorded bind this log) =
    log ++ recorded bind this [] ++ recorded bind this' [] ∧
  length (recorded bind this (recorded bind this [])) = 8%nat.
Proof.
  assert (A : ∀ t l, recorded bind t l = l ++ recorded bind t []).
  { intros t l. unfold recorded, buildConstraints. simpl.
    by rewrite <- !(assoc_L (++)). }
  split; [apply A|]. split; [|split].
  - rewrite A, length_app. reflexivity.
  - by rewrite (A this'), (A this log), <- (assoc_L (++)).
  - reflexivity.
Qed.

End ConstraintsMore.

Section BoundingBoxMore.
Context `{GraphicsTypes}.

Implicit Types (this : ImageElementClass).

Lemma Qc_difference_zero (p q : Qc) : Qcabs (q - p) = 0 ↔ p = q.
Proof.
  split.
  - intros E. apply Qcabs_null in E.
    rewrite <- (Qcplus_0_l p), <- E. ring.
  - intros ->. replace (q - q) with (0 : Qc) by ring.
    by apply Qcabs_pos.
Qed.

(** X8.  The bounding box is degenerate exactly when corners coincide: its
    width is 0 if and only if [x1 = x2], its height is 0 if and only if
    [y1 = y2]; whatever the corners, no size is negative. *)
Theorem getBoundingBox_degenerate this :
  let a := state_attributes this in
  let box := getBoundingBox this in
  (BoundingBox.width box = 0 ↔ x1 a = x2 a) ∧
  (BoundingBox.height box = 0 ↔ y1 a = y2 a) ∧
  0 ≤ BoundingBox.width box ∧ 0 ≤ BoundingBox.height box.
Proof.
  intros a box. subst box. unfold getBoundingBox, Math_abs. fold a. simpl.
  split; [apply Qc_difference_zero|].
  split; [apply Qc_difference_zero|].
  split; apply Qcabs_nonneg.
Qed.

End BoundingBoxMore.

Section GetGraphicsMore.
Context `{GraphicsTypes} {GS : Graphics.Services}.

Implicit Types (this : ImageElementClass) (cs : Graphics.CoordinateSystem).
Implicit Types (offset : Point) (glyphIndex : Num).
Implicit Types (resolveResource : string → string).


(** X13.  A flipped box shows the same image.  If the distance the host
    measures is symmetric, then for a visible mark the group [getGraphics]
    returns after exchanging [x1] with [x2], or [y1] with [y2], holds the
    very image group the group for the mark itself holds: the same image
    primitive (source, position, size, resize mode) under the same
    transform, after as many elements (the fill rectangle, if any) and
    before as many (the stroke rectangle, if any). *)
Theorem getGraphics_flipped_same_image this cs offset glyphIndex
    resolveResource :
  (∀ p q, Graphics.pointDistance p q = Graphics.pointDistance q p) →
  visible (state_attributes this) = true →
  prop_visible (object_properties this) = true →
  let a := state_attributes this in
  let below := length (option_list (fill a)) in
  let above := length (option_list (stroke a)) in
  let result that :=
    run resolveResource (getGraphics that cs offset glyphIndex) in
  sameImageGroup below above (result this) (result (swapX this)) ∧
  sameImageGroup below above (result this) (result (swapY this)).
Proof.
  intros Hsym Hv Hp a below above result. subst result. cbv beta.
  destruct (getGraphics_shown this cs offset glyphIndex resolveResource
    Hv Hp) as [E _].
  destruct (getGraphics_shown (swapX this) cs offset glyphIndex
    resolveResource Hv Hp) as [Ex _].
  destruct (getGraphics_shown (swapY this) cs offset glyphIndex
    resolveResource Hv Hp) as [Ey _].
  rewrite E, Ex, Ey. clear E Ex Ey.
  unfold layers, imageLayer, swapX, swapY. cbv zeta. simpl. fold a.
  rewrite (Qcplus_comm (x2 a) (x1 a)), (Qcplus_comm (y2 a) (y1 a)).
  rewrite (Hsym (Graphics.transformPoint cs (x2 a + x offset) _)).
  rewrite (Hsym (Graphics.transformPoint cs _ (y2 a + y offset))).
  split; unfold sameImageGroup;
    eexists _, _, _, _, _, _, _, _; cbv zeta;
    (split; [reflexivity|]); (split; [reflexivity|]);
    by destruct (fill a), (stroke a).
Qed.

End GetGraphicsMore.

Section GuidesAndAnchors.
Context `{GraphicsTypes}.

Implicit Types (this : ImageElementClass).

(** X14.  [getSnappingGuides] returns six guides, one for each of [x1],
    [x2], [cx], [y1], [y2] and [cy]; each is at the current value of the
    attribute it names and has the axis of that attribute. *)
Theorem getSnappingGuides_placed this :
  let guides := getSnappingGuides this in
  SnappingGuides.attribute <$> guides =
    ["x1"; "x2"; "cx"; "y1"; "y2"; "cy"]%string ∧
  Forall (guidePlaced (state_attributes this)) guides.
Proof.
  unfold getSnappingGuides. cbv zeta beta iota.
  split; [reflexivity|]. by repeat constructor.
Qed.

(** X15.  Every line handle has its snapping guide: the guides include
    one with the axis, the value and the attribute of each line handle, so
    an edge that can be dragged can also be snapped to. *)
Theorem line_handles_have_guides this :
  Forall (λ h, ∃ g, guideOf h = Some g ∧ g ∈ getSnappingGuides this)
    (lineHandles (getHandles this)).
Proof.
  unfold getHandles, getSnappingGuides, lineHandles. cbv zeta beta iota.
  simpl. repeat constructor; eexists; (split; [reflexivity|]); set_solver.
Qed.

(** X16.  The centre guides show the stored centre, not the centre of the
    box: the guides contain one at the bounding box's [cx] for [cx] and one
    at its [cy] for [cy] exactly when the stored [cx] and [cy] are the
    midpoints of the corners. *)
Theorem centre_guides_at_boundingBox_centre this :
  let a := state_attributes this in
  let box := getBoundingBox this in
  ({| SnappingGuides.type := Handles.X;
      SnappingGuides.value := BoundingBox.cx box;
      SnappingGuides.attribute := "cx" |} ∈ getSnappingGuides this ∧
   {| SnappingGuides.type := Handles.Y;
      SnappingGuides.value := BoundingBox.cy box;
      SnappingGuides.attribute := "cy" |} ∈ getSnappingGuides this) ↔
  cx a = (x1 a + x2 a) / 2 ∧ cy a = (y1 a + y2 a) / 2.
Proof.
  intros a box. subst box.
  unfold getSnappingGuides, getBoundingBox. cbv zeta beta iota. fold a.
  simpl. rewrite !elem_of_cons, !elem_of_nil. split.
  - intros [Hx Hy]. split.
    + destruct Hx as [E|[E|[E|[E|[E|[E|[]]]]]]]; by inversion E.
    + destruct Hy as [E|[E|[E|[E|[E|[E|[]]]]]]]; by inversion E.
  - intros [-> ->]. split; [do 2 right; by left | do 5 right; by left].
Qed.

End GuidesAndAnchors.

Section LinkAnchors.
Context `{GraphicsTypes} {Mapping : Type}.

Implicit Types (this : ImageElementObject Mapping).

(** X17.  [getLinkAnchors] returns eight groups with twelve anchor points
    in all, every group carrying the identity of the object; every point
    is at the current values of the two attributes it names, an x
    attribute and a y attribute. *)
Theorem getLinkAnchors_placed this :
  let groups := getLinkAnchors this in
  length groups = 8%nat ∧
  Forall (λ g, LinkAnchor.element g = object_id this) groups ∧
  length (anchorPoints groups) = 12%nat ∧
  Forall (anchorPlaced (state_attributes (instance this)))
    (anchorPoints groups).
Proof.
  unfold getLinkAnchors, anchorPoints. cbv zeta beta iota.
  split; [reflexivity|]. split; [by repeat constructor|].
  split; [reflexivity|]. simpl. by repeat constructor.
Qed.


End LinkAnchors.

Section DropZonesMore.
Context `{GraphicsTypes}.

(** X20.  The drop zones run between corners of the box.  There are two,
    "width" and then "height"; all four of their ends are positions of
    point handles; the "width" zone ends and the "height" zone starts at
    the corner [(x1, y1)]; the "width" zone is parallel to the x axis and
    the "height" zone parallel to the y axis. *)
Theorem getDropZones_between_corners (this : ImageElementClass) :
  let a := state_attributes this in
  let corners := cornerPoints (getHandles this) in
  ∃ w h,
    getDropZones this = [w; h]%list ∧
    DropZones.title w = "width"%string ∧
    DropZones.title h = "height"%string ∧
    DropZones.p2 w = {| x := x1 a; y := y1 a |} ∧
    DropZones.p1 h = {| x := x1 a; y := y1 a |} ∧
    Forall (λ p, p ∈ corners)
      [DropZones.p1 w; DropZones.p2 w; DropZones.p1 h; DropZones.p2 h] ∧
    y (DropZones.p1 w) = y (DropZones.p2 w) ∧
    x (DropZones.p1 h) = x (DropZones.p2 h).
Proof.
  intros a corners. subst corners.
  unfold getDropZones, getHandles, cornerPoints. cbv zeta beta iota.
  fold a. simpl.
  eexists _, _. split; [reflexivity|]. simpl.
  do 4 (split; [reflexivity|]). split; [|by split].
  repeat constructor; set_solver.
Qed.

End DropZonesMore.

Section PanelMore.
Context `{GraphicsTypes} {Mapping : Type}.

Implicit Types (this : ImageElementObject Mapping).

(** X21.  The panel offers the "Line Width" editor exactly when the object
    has a mapping for [stroke]: with the mapping the panel has twelve
    widgets and edits [strokeWidth], without it eleven and it does not;
    the other widgets edit the same attributes in the same order either
    way. *)
Theorem lineWidth_editor_iff_stroke_mapped this :
  let panel :=
    getAttributePanelWidgets (WM := Controls.describing) this in
  let others :=
    filter (λ w, editedAttribute w ≠ Some "strokeWidth"%string) panel in
  ("strokeWidth"%string ∈ editedAttributes panel ↔
   is_Some (object_mappings this !! "stroke")) ∧
  length panel =
    match object_mappings this !! "stroke" with
    | Some _ => 12%nat
    | None => 11%nat
    end ∧
  length others = 11%nat ∧
  editedAttributes others =
    ["width"; "height"; "image"; "fill"; "stroke";
     "opacity"; "visible"]%string.
Proof.
  unfold getAttributePanelWidgets. cbv zeta.
  destruct (object_mappings this !! "stroke") as [m|]; simpl.
  - split; [|by repeat split]. split; [by eauto|].
    intros _. unfold editedAttributes. simpl.
    apply (bool_decide_unpack _). by vm_compute.
  - split; [|by repeat split]. split.
    + unfold editedAttributes. simpl. intros E.
      by apply (bool_decide_pack _) in E.
    + by intros [? ?].
Qed.

(** X22.  The panel is a fixed sequence of calls: with any manager it is
    the widgets that manager returns for the calls the panel consists of.
    Its mapping editors edit pairwise different attributes, all of them
    declared attributes of the mark, and none edits a corner or the
    centre. *)
Theorem getAttributePanelWidgets_calls (WM : Controls.WidgetManager) this :
  let panel :=
    getAttributePanelWidgets (WM := Controls.describing) this in
  getAttributePanelWidgets (WM := WM) this = replay WM <$> panel ∧
  NoDup (editedAttributes panel) ∧
  Forall (λ name, name ∈ attributeNames) (editedAttributes panel) ∧
  Forall (λ name, name ∉ editedAttributes panel)
    ["x1"; "y1"; "x2"; "y2"; "cx"; "cy"]%string.
Proof.
  unfold getAttributePanelWidgets. cbv zeta.
  destruct (object_mappings this !! "stroke") as [m|]; simpl;
    (split; [reflexivity|]); unfold editedAttributes, attributeNames; simpl;
    repeat split; apply (bool_decide_unpack _); by vm_compute.
Qed.

End PanelMore.

Section Composition.
Context `{GraphicsTypes} {GS : Graphics.Services}.

Implicit Types (this : ImageElementClass) (cs : Graphics.CoordinateSystem).
Implicit Types (offset : Point) (glyphIndex : Num).
Implicit Types (resolveResource : string → string).

(** X23.  A freshly initialized mark with the static default properties is
    drawn at once: whatever the store held, the state [initializeState]
    leaves renders as a group holding the placeholder image group and
    nothing else, at opacity 1, without a request to the manager. *)
Theorem initialized_mark_renders_placeholder
    (attrs : gmap string AttributeValue) cs offset glyphIndex
    resolveResource :
  ∃ a,
    asImageElementAttributes (initializeState attrs) = Some a ∧
    let this :=
      {| object_properties := defaultProperties; state_attributes := a |} in
    run resolveResource (getGraphics this cs offset glyphIndex) =
      Some (Graphics.EGroup
        {| Graphics.elements := [imageLayer this cs offset imagePlaceholder];
           Graphics.transform := defaultTransform;
           Graphics.style :=
             Some {| Graphics.strokeColor := None;
                     Graphics.strokeWidth := None;
                     Graphics.strokeLinejoin := None;
                     Graphics.fillColor := None;
                     Graphics.opacity := Some 1 |} |}) ∧
    requests resolveResource (getGraphics this cs offset glyphIndex) = [].
Proof.
  exists defaultAttributes. split.
  - pose proof (initializeState_lookups attrs) as L. cbv zeta in L.
    destruct L as (Lx1 & Ly1 & Lx2 & Ly2 & Lcx & Lcy & Lw & Lh & Ls & Lf &
                   Lsw & Lo & Lv & Li).
    unfold asImageElementAttributes, readNumber, readColor, readBoolean,
      readImage.
    by rewrite Lx1, Ly1, Lx2, Ly2, Lcx, Lcy, Lw, Lh, Ls, Lf, Lsw, Lo, Lv, Li.
  - intros this.
    by apply (getGraphics_shown this cs offset glyphIndex resolveResource).
Qed.

(** X24.  The image is centred on the box.  In the group a visible mark
    returns, the image group is placed by the coordinate system's local
    transform at the centre of the bounding box moved by the offset, and
    its one image primitive is centred on the origin of that frame: its
    left edge is half its width, its top edge half its height, before the
    origin.  The primitive carries the resize mode of the object. *)
Theorem getGraphics_image_centred this cs offset glyphIndex resolveResource :
  visible (state_attributes this) = true →
  prop_visible (object_properties this) = true →
  let box := getBoundingBox this in
  ∃ img below above style,
    run resolveResource (getGraphics this cs offset glyphIndex) =
      Some (Graphics.EGroup
        {| Graphics.elements :=
             below ++
             [Graphics.EGroup
                {| Graphics.elements := [Graphics.EImage img];
                   Graphics.transform :=
                     Graphics.getLocalTransform cs
                       (BoundingBox.cx box + x offset)
                       (BoundingBox.cy box + y offset);
                   Graphics.style := None |}] ++
             above;
           Graphics.transform := defaultTransform;
           Graphics.style := style |}) ∧
    Graphics.x img + Graphics.width img / 2 = 0 ∧
    Graphics.y img + Graphics.height img / 2 = 0 ∧
    Graphics.mode img = imageMode (object_properties this).
Proof.
  intros Hv Hp box.
  destruct (getGraphics_shown this cs offset glyphIndex resolveResource
    Hv Hp) as [E _].
  unfold layers, imageLayer in E. cbv zeta in E.
  eexists _, _, _, _. split; [exact E|]. simpl.
  split; [|split; [|reflexivity]]; field; apply Qc_two_nonzero.
Qed.

End Composition.

Section CreatingInteraction.
Context `{GraphicsTypes}.

(** X25.  What is set when the mark is created can be dragged afterwards:
    the attributes the creating interaction maps the drawn rectangle to are
    the four corner attributes, each once, and they are the attributes the
    four line handles write. *)
Theorem creatingInteraction_sets_handle_attributes
    (this : ImageElementClass) :
  creatingInteraction_mapping.*2 ≡ₚ
    concat (targets <$> lineHandles (getHandles this)) ∧
  NoDup creatingInteraction_mapping.*2 ∧
  Forall (λ name, is_Some (cornerValue (state_attributes this) name))
    creatingInteraction_mapping.*2.
Proof.
  unfold getHandles, creatingInteraction_mapping. cbv zeta beta iota. simpl.
  split; [|split].
  - apply perm_skip, perm_swap.
  - apply (bool_decide_unpack _). by vm_compute.
  - repeat constructor; by eexists.
Qed.

End CreatingInteraction.

(** * The further properties at concrete states *)

Lemma axisDistance_symmetric (p q : Point) :
  Host.axisDistance p q = Host.axisDistance q p.
Proof.
  unfold Host.axisDistance.
  rewrite (Qcabs_flip (x p)), (Qcabs_flip (y p)). reflexivity.
Qed.

(** X1 on a store that holds a note beside the attributes: the note is
    still there after initialization. *)
Lemma initializeState_keeps_other_properties_note :
  ("note"%string ∉ attributeNames) ∧
  @initializeState Host.types Host2.foreign !! "note" =
    Some (AVString "kept").
Proof.
  assert (N : "note"%string ∉ attributeNames)
    by (apply (bool_decide_unpack _); vm_compute; exact I).
  split; [exact N|].
  exact (eq_trans
    (@initializeState_keeps_other_properties Host.types Host2.foreign
       "note" N) eq_refl).
Defined.

(** X5 at the default state, read as an assignment of the variables. *)
Lemma solved_attributes_match_boundingBox_defaults :
  Forall (holds (currentValues Host.defaults))
    (recorded byName (Host.mark Host.defaults) []) ∧
  currentValues Host.defaults "cx" =
    BoundingBox.cx (getBoundingBox (Host.mark Host.defaults)) ∧
  Qcabs (currentValues Host.defaults "width") =
    BoundingBox.width (getBoundingBox (Host.mark Host.defaults)).
Proof.
  assert (S : Forall (holds (currentValues Host.defaults))
                (recorded byName (Host.mark Host.defaults) []))
    by (apply recorded_holds; apply (@consistent_defaults Host.types)).
  split; [exact S|].
  destruct (@solved_attributes_match_boundingBox Host.types string byName
    (Host.mark Host.defaults) (currentValues Host.defaults)
    eq_refl eq_refl eq_refl eq_refl S) as (Ecx & _ & Ew & _).
  exact (conj Ecx Ew).
Defined.

(** X13 under the concrete host, whose distance is symmetric. *)
Lemma getGraphics_flipped_same_image_styled :
  (∀ p q, Host.axisDistance p q = Host.axisDistance q p) ∧
  visible Host.styled = true ∧
  prop_visible Host.properties = true ∧
  @sameImageGroup Host.types 1 1
    (run Host2.constantly
       (@getGraphics Host.types Host.services (Host.mark Host.styled)
          Host.cartesian Host.origin 0))
    (run Host2.constantly
       (@getGraphics Host.types Host.services
          (swapX (Host.mark Host.styled)) Host.cartesian Host.origin 0)).
Proof.
  split; [exact axisDistance_symmetric|].
  split; [reflexivity|]. split; [reflexivity|].
  exact (proj1 (@getGraphics_flipped_same_image Host.types Host.services
    (Host.mark Host.styled) Host.cartesian Host.origin 0 Host2.constantly
    axisDistance_symmetric eq_refl eq_refl)).
Defined.

(** X24 at the styled state under the concrete host. *)
Lemma getGraphics_image_centred_styled :
  visible Host.styled = true ∧
  prop_visible Host.properties = true ∧
  ∃ img below above style,
    run Host2.constantly
      (@getGraphics Host.types Host.services (Host.mark Host.styled)
         Host.cartesian Host.origin 0) =
      Some (Graphics.EGroup
        {| Graphics.elements :=
             below ++
             [Graphics.EGroup
                {| Graphics.elements := [Graphics.EImage img];
                   Graphics.transform :=
                     Host.translation
                       (BoundingBox.cx
                          (getBoundingBox (Host.mark Host.styled)) + 0)
                       (BoundingBox.cy
                          (getBoundingBox (Host.mark Host.styled)) + 0);
                   Graphics.style := None |}] ++
             above;
           Graphics.transform := @defaultTransform Host.types;
           Graphics.style := style |}) ∧
    Graphics.x img + Graphics.width img / 2 = 0 ∧
    Graphics.y img + Graphics.height img / 2 = 0 ∧
    Graphics.mode img = Letterbox.
Proof.
  split; [reflexivity|]. split; [reflexivity|].
  exact (@getGraphics_image_centred Host.types Host.services
    (Host.mark Host.styled) Host.cartesian Host.origin 0 Host2.constantly
    eq_refl eq_refl).
Defined.

(** * The claims that fail as stated, at concrete states *)

Lemma Qc_15_not_le : ¬ #15 ≤ #(-15).
Proof. apply Qclt_not_le. by vm_compute. Qed.

(** C5 fails as stated.  On the box dragged past its opposite corner, with
    [x1 = 15] and [x2 = -15], the "height" zone runs along [x = 15], the
    edge of larger x, so the zones are not along the top and the left edge,
    whichever way y is oriented. *)
Lemma getDropZones_flipped_not_top_left :
  DropZones.p1 <$> list.last (getDropZones (Host.mark Host.flipped)) =
    Some {| x := #15; y := #25 |} ∧
  leftEdge Host.flipped = #(-15) ∧
  ¬ zonesTopLeft false (Host.mark Host.flipped) ∧
  ¬ zonesTopLeft true (Host.mark Host.flipped).
Proof.
  assert (L : leftEdge Host.flipped = #(-15)).
  { unfold leftEdge, Qcmin. simpl.
    destruct (decide (#15 ≤ #(-15))) as [C|_]; [|reflexivity].
    by apply Qc_15_not_le in C. }
  assert (N : ∀ yUp, ¬ zonesTopLeft yUp (Host.mark Host.flipped)).
  { intros yUp (w & h & E & _ & _ & _ & [Hx _]).
    injection E as <- <-.
    change (x1 Host.flipped = leftEdge Host.flipped) in Hx.
    rewrite L in Hx.
    apply (f_equal (λ q, Qnum (this q))) in Hx. simpl in Hx. done. }
  split; [reflexivity|]. split; [exact L|]. split; apply N.
Qed.

(** C6 fails as stated.  The default state has [visible] true and an empty
    image, but on an object whose [visible] property is off [getGraphics]
    returns [null]: there is no group and no image primitive. *)
Lemma getGraphics_image_source_hidden_object :
  visible Host.defaults = true ∧
  image Host.defaults = Some ""%string ∧
  run Host.resolveResource
    (@getGraphics Host.types Host.services (Host2.hiddenObject Host.defaults)
       Host.cartesian Host.origin 0) = None ∧
  ¬ @showsImage Host.types Host.services (Host2.hiddenObject Host.defaults)
      Host.cartesian Host.origin 0 Host.resolveResource.
Proof.
  split; [reflexivity|]. split; [reflexivity|]. split; [reflexivity|].
  intros (g & E & _). discriminate E.
Qed.

(** C7 fails as stated.  The styled state has [visible] true and both
    colours set, but on an object whose [visible] property is off
    [getGraphics] returns [null]: there is no group to hold the three
    elements. *)
Lemma getGraphics_fill_image_stroke_hidden_object :
  visible Host.styled = true ∧
  fill Host.styled = Some Host.white ∧
  stroke Host.styled = Some Host.black ∧
  run Host.resolveResource
    (@getGraphics Host.types Host.services (Host2.hiddenObject Host.styled)
       Host.cartesian Host.origin 0) = None ∧
  ¬ @showsFillImageStroke Host.types Host.services
      (Host2.hiddenObject Host.styled) Host.cartesian Host.origin 0
      Host.resolveResource Host.white Host.black.
Proof.
  split; [reflexivity|]. split; [reflexivity|]. split; [reflexivity|].
  split; [reflexivity|].
  intros (g & src & E & _). discriminate E.
Qed.
